(** * discord-audio-stream-bot: a shallow embedding of [src/index.js] and
    [src/stream.js]

    The bot is a single Node.js process.  Its mutable state is the [player]
    variable of the ClientReady closure, the capture stream built by
    [createStream], the table of voice connections kept by the voice library
    (read with [getVoiceConnection], written by [joinVoiceChannel] and
    [destroy]) and the caches of the Discord client.  Handlers are modelled
    as computations in a state monad that also records the effects they
    perform (console output, messages sent, library calls) and that can end
    normally, by a thrown JavaScript error, or by [process.exit]. *)

From Stdlib Require Import String Ascii List ZArith Bool Lia.
From stdpp Require Import base option gmap strings list.

Local Open Scope string_scope.
Local Open Scope Z_scope.

(** ** Values *)

(** Discord ids ("snowflakes") are strings in discord.js. *)
Abbreviation Snowflake := string.

(** The members of discord.js' [ChannelType] that a guild cache can hold. *)
Inductive ChannelType :=
| GuildText | GuildVoice | GuildCategory | GuildAnnouncement
| GuildStageVoice | GuildForum.

Definition ChannelType_eqb (a b : ChannelType) : bool :=
  match a, b with
  | GuildText, GuildText | GuildVoice, GuildVoice
  | GuildCategory, GuildCategory | GuildAnnouncement, GuildAnnouncement
  | GuildStageVoice, GuildStageVoice | GuildForum, GuildForum => true
  | _, _ => false
  end.

Record Channel := {
  ch_id : Snowflake;
  ch_name : string;
  ch_type : ChannelType;
  ch_guild : Snowflake;            (* [channel.guild.id] *)
}.

(** A guild as a handler sees it: [guild.channels.cache] in cache order and
    [guild.members.cache.get(client.user.id)?.voice.channel].  That value is
    [undefined] when the bot's member is not cached ([None]), [null] when
    the cached voice state names no channel ([Some None]), and otherwise a
    channel, of which only the id is read. *)
Record Guild := {
  guild_id : Snowflake;
  guild_name : string;
  guild_channels : list Channel;
  guild_me_voice : option (option Snowflake);
}.

(** A device descriptor.  The source reads [name], [id] and
    [defaultSampleRate] only; [dev_channels] and [dev_bitDepth] are the two
    further capability fields of the specification's AudioDevice. *)
Record Device := {
  dev_name : string;
  dev_id : Z;
  dev_defaultSampleRate : Z;
  dev_channels : Z;
  dev_bitDepth : Z;
}.

Inductive JsError :=
| Error (message : string)
| TypeError (message : string)
| ReferenceError (message : string).

Definition message_of (e : JsError) : string :=
  match e with Error m | TypeError m | ReferenceError m => m end.

(** The result of [new EmbedBuilder().setColor(..).setTitle(..)...]; the
    timestamp is left out. *)
Record Embed := {
  embed_color : string;
  embed_title : string;
  embed_description : string;
  embed_footer : string;
}.

(** ** Process state *)

Inductive PlayerStatus := Idle | Playing.

(** The audio player returned by [createStream] together with the capture
    stream ([AudioIO]) it plays. *)
Record Pipeline := {
  player_status : PlayerStatus;
  capture_device : Z;
  capture_started : bool;
}.

(** An entry of the voice library's connection table. *)
Record VoiceConnection := {
  vc_channel : Snowflake;
  vc_subscribed : bool;            (* the shared player is subscribed *)
}.

Record State := {
  st_clientId : Snowflake;                          (* client.user.id *)
  st_channels : gmap string Channel;                (* client.channels.cache *)
  st_guilds : list Guild;                           (* client.guilds.cache *)
  st_player : option Pipeline;                      (* let player *)
  st_connections : gmap string VoiceConnection;     (* keyed by guild id *)
  st_listening : bool;         (* MessageCreate and SIGINT handlers attached *)
  st_clientDestroyed : bool;
}.

Definition set_player (p : option Pipeline) (s : State) : State :=
  {| st_clientId := st_clientId s; st_channels := st_channels s;
     st_guilds := st_guilds s; st_player := p;
     st_connections := st_connections s; st_listening := st_listening s;
     st_clientDestroyed := st_clientDestroyed s |}.

Definition set_connections (c : gmap string VoiceConnection) (s : State) : State :=
  {| st_clientId := st_clientId s; st_channels := st_channels s;
     st_guilds := st_guilds s; st_player := st_player s;
     st_connections := c; st_listening := st_listening s;
     st_clientDestroyed := st_clientDestroyed s |}.

Definition set_listening (b : bool) (s : State) : State :=
  {| st_clientId := st_clientId s; st_channels := st_channels s;
     st_guilds := st_guilds s; st_player := st_player s;
     st_connections := st_connections s; st_listening := b;
     st_clientDestroyed := st_clientDestroyed s |}.


(** ** Effects *)

Inductive Effect :=
| ConsoleLog (line : string)
| ConsoleError (line : string)
| SetStatus (status : string)
| Send (channel : Snowflake) (embed : Embed)
| CreateAudioPlayer
| NewAudioIO (deviceId : Z)
| CreateAudioResource
| PlayerPlay
| AudioStart
| PlayerOn (event : string)
| JoinVoiceChannel (channelId guildId : Snowflake)
| Subscribe (guildId : Snowflake)
| PlayerStop
| ConnectionDestroy (guildId : Snowflake)
| ClientDestroy
| ProcessExit (code : Z).

(** ** The monad of handlers *)

Inductive Completion (A : Type) :=
| Normal (a : A)
| Throw (e : JsError)
| Exit (code : Z).
Arguments Normal {A} a.
Arguments Throw {A} e.
Arguments Exit {A} code.

Record Result (A : Type) := mkResult {
  completion : Completion A;
  state : State;
  effects : list Effect;
}.
Arguments mkResult {A} _ _ _.
Arguments completion {A} _.
Arguments state {A} _.
Arguments effects {A} _.

Definition M (A : Type) : Type := State -> Result A.

Definition ret {A} (a : A) : M A := fun s => mkResult (Normal a) s [].

Definition bind {A B} (m : M A) (f : A -> M B) : M B := fun s =>
  match m s with
  | mkResult (Normal a) s' done =>
      match f a s' with
      | mkResult c s'' done' => mkResult c s'' (done ++ done')
      end
  | mkResult (Throw e) s' done => mkResult (Throw e) s' done
  | mkResult (Exit code) s' done => mkResult (Exit code) s' done
  end.

Definition throw {A} (e : JsError) : M A := fun s => mkResult (Throw e) s [].

(** [try { m } catch (error) { h error }] *)
Definition try_catch {A} (m : M A) (h : JsError -> M A) : M A := fun s =>
  match m s with
  | mkResult (Throw e) s' done =>
      match h e s' with
      | mkResult c s'' done' => mkResult c s'' (done ++ done')
      end
  | r => r
  end.

Definition get : M State := fun s => mkResult (Normal s) s [].
Definition modify (f : State -> State) : M unit := fun s => mkResult (Normal tt) (f s) [].
Definition emit (e : Effect) : M unit := fun s => mkResult (Normal tt) s [e].

(** [process.exit(code)]: nothing after it runs. *)
Definition process_exit {A} (code : Z) : M A := fun s =>
  mkResult (Exit code) s [ProcessExit code].

Notation "x <- m ;; k" := (bind m (fun x => k))
  (at level 100, m at next level, right associativity).
Notation "m ;; k" := (bind m (fun _ => k))
  (at level 100, right associativity).

Definition when (b : bool) (m : M unit) : M unit := if b then m else ret tt.


Definition console_log (line : string) : M unit := emit (ConsoleLog line).
Definition console_error (line : string) : M unit := emit (ConsoleError line).
Definition setStatus (status : string) : M unit := emit (SetStatus status).
Definition send (channel : Snowflake) (e : Embed) : M unit := emit (Send channel e).

(** ** [src/stream.js] *)

(** [createStream(client, device)], lines 20-56.  [device] is
    [Device | undefined]; reading a property of [undefined] is a TypeError. *)
Definition createStream (device : option Device) : M Pipeline :=
  match device with
  | None =>
      throw (TypeError "Cannot read properties of undefined (reading 'defaultSampleRate')")
  | Some device =>
      if negb (dev_defaultSampleRate device =? 48000) then
        throw (Error (dev_name device +:+ " is not a supported audio device ..."))
      else
        emit CreateAudioPlayer ;;
        emit (NewAudioIO (dev_id device)) ;;
        emit CreateAudioResource ;;
        emit PlayerPlay ;;
        emit AudioStart ;;
        emit (PlayerOn "idle") ;;
        emit (PlayerOn "error") ;;
        ret {| player_status := Playing;
               capture_device := dev_id device;
               capture_started := true |}
  end.

(** The listener of line 52, [() => connection.destroy()]: no binding of
    [connection] is in scope in [stream.js].  The library runs it from its
    own audio cycle when the player has become idle, outside every command
    handler. *)
Definition onPlayerIdle : M unit :=
  throw (ReferenceError "connection is not defined").

(** ** The voice library, as [src/index.js] uses it

    The library keeps one connection per guild.  [getVoiceConnection] reads
    that table; [joinVoiceChannel] returns the guild's connection, moved to
    the requested channel, creating it when the guild has none;
    [connection.destroy()] removes it from the table.  [joinError] is the
    error, if any, that this call of [joinVoiceChannel] raises. *)

Definition getVoiceConnection (guildId : Snowflake) : M (option VoiceConnection) :=
  s <- get ;; ret (st_connections s !! guildId).

Definition joinVoiceChannel (joinError : option JsError)
    (channelId guildId : Snowflake) : M Snowflake :=
  emit (JoinVoiceChannel channelId guildId) ;;
  match joinError with
  | Some e => throw e
  | None =>
      modify (fun s =>
        let subscribed :=
          match st_connections s !! guildId with
          | Some c => vc_subscribed c
          | None => false
          end in
        set_connections
          (<[guildId := {| vc_channel := channelId; vc_subscribed := subscribed |}]>
             (st_connections s)) s) ;;
      ret guildId
  end.

(** [connection.subscribe(player)] on the connection of [guildId]. *)
Definition subscribe (guildId : Snowflake) : M unit :=
  s <- get ;;
  match st_player s with
  | None => throw (TypeError "Cannot read properties of undefined (reading 'subscribe')")
  | Some _ =>
      emit (Subscribe guildId) ;;
      modify (fun s =>
        set_connections
          (alter (fun c => {| vc_channel := vc_channel c; vc_subscribed := true |})
             guildId (st_connections s)) s)
  end.

(** [player.stop()]: playback of the shared player is stopped and the
    player comes to rest in the Idle state, at once or after its silence
    padding frames (the two are not told apart here: [Idle] records that
    the player has been told to stop); the capture stream object is not
    touched.  The idle event the library emits when the player has come to
    rest is handled by [onPlayerIdle]. *)
Definition player_stop : M unit :=
  s <- get ;;
  match st_player s with
  | None => throw (TypeError "Cannot read properties of undefined (reading 'stop')")
  | Some p =>
      emit PlayerStop ;;
      modify (set_player (Some {| player_status := Idle;
                                  capture_device := capture_device p;
                                  capture_started := capture_started p |}))
  end.

Definition connection_destroy (guildId : Snowflake) : M unit :=
  emit (ConnectionDestroy guildId) ;;
  modify (fun s => set_connections (delete guildId (st_connections s)) s).


(** ** [src/index.js] *)

Definition nl : string := String (ascii_of_nat 10) EmptyString.

(** Template-literal rendering of a [string|null]. *)
Definition show (v : option string) : string :=
  match v with Some x => x | None => "null" end.

(** JavaScript truthiness of a [string|undefined]. *)
Definition truthy (v : option string) : bool :=
  match v with
  | Some x => negb (String.eqb x "")
  | None => false
  end.

(** [v === lit] for a [string|undefined]. *)
Definition strictEq (v : option string) (lit : string) : bool :=
  match v with Some x => String.eqb x lit | None => false end.

(** [String.prototype.split] with a one-character separator. *)
Fixpoint split (sep : ascii) (s : string) : list string :=
  match s with
  | EmptyString => [EmptyString]
  | String c r =>
      if Ascii.eqb c sep then EmptyString :: split sep r
      else match split sep r with
           | w :: ws => String c w :: ws
           | [] => [String c EmptyString]
           end
  end.

Definition isDigit (c : ascii) : bool :=
  ((48 <=? nat_of_ascii c) && (nat_of_ascii c <=? 57))%nat.

(** [/^\d{n}$/]: exactly [n] characters, each a decimal digit. *)
Fixpoint matchDigits (n : nat) (s : string) : bool :=
  match n, s with
  | O, EmptyString => true
  | S n', String c r => isDigit c && matchDigits n' r
  | _, _ => false
  end.

(** [channelId.match(/^\d{18}$/g)] is not [null]. *)
Definition isChannelId (channelId : string) : bool := matchDigits 18 channelId.

(** [error.message.replace(/\\.$/, '')]: a final backslash followed by one
    character other than a line terminator is removed, a character being
    one UTF-16 code unit.  Texts are held here as their UTF-8 bytes, where
    one code unit is a code point below U+10000: a byte below 128, or a
    lead byte with one or two continuation bytes. *)
Definition isContinuationByte (c : ascii) : bool :=
  ((128 <=? nat_of_ascii c) && (nat_of_ascii c <? 192))%nat.

Definition isOneCodeUnit (ch : string) : bool :=
  match ch with
  | String a EmptyString => (nat_of_ascii a <? 128)%nat
  | String a (String b EmptyString) =>
      ((192 <=? nat_of_ascii a) && (nat_of_ascii a <? 224))%nat
      && isContinuationByte b
  | String a (String b (String c EmptyString)) =>
      ((224 <=? nat_of_ascii a) && (nat_of_ascii a <? 240))%nat
      && isContinuationByte b && isContinuationByte c
  | _ => false
  end.

(** LF, CR, U+2028 and U+2029. *)
Definition isLineTerminator (ch : string) : bool :=
  String.eqb ch (String (ascii_of_nat 10) EmptyString)
  || String.eqb ch (String (ascii_of_nat 13) EmptyString)
  || String.eqb ch
       (String (ascii_of_nat 226)
          (String (ascii_of_nat 128) (String (ascii_of_nat 168) EmptyString)))
  || String.eqb ch
       (String (ascii_of_nat 226)
          (String (ascii_of_nat 128) (String (ascii_of_nat 169) EmptyString))).

Fixpoint dropFinalEscape (s : string) : string :=
  match s with
  | EmptyString => EmptyString
  | String c r =>
      if Ascii.eqb c "\" && isOneCodeUnit r && negb (isLineTerminator r)
      then EmptyString
      else String c (dropFinalEscape r)
  end.

(** Lines 93-98. *)
Definition messageEmbedTemplate (title content : string) : Embed :=
  {| embed_color := "#7289da";
     embed_title := title;
     embed_description := content;
     embed_footer := "Discord Audio Stream Bot" |}.

(** Lines 110-114: the first channel of the guild cache that is a voice
    channel and whose name is strictly equal to [channelName]. *)
Definition getVoiceChannelByName (guild : Guild) (channelName : string) : option Channel :=
  List.find
    (fun channel =>
       ChannelType_eqb (ch_type channel) GuildVoice
       && String.eqb (ch_name channel) channelName)
    (guild_channels guild).

(** Lines 126-191.  [channel] is the id of the text channel replied to.
    The closure variable [voiceConnection] is assigned at line 129 of every
    call before it is read, so it is a local value here. *)
Definition voiceController (joinError : option JsError) (action : string)
    (guild : Guild) (channel : Snowflake) (channelId : option string) : M unit :=
  s <- get ;;
  let voiceChannel := channelId ≫= (fun id => st_channels s !! id) in
  let connectedTo := guild_me_voice guild in
  voiceConnection <- getVoiceConnection (guild_id guild) ;;
  if (negb (bool_decide (is_Some voiceChannel)) && negb (String.eqb action "stop"))
     || match voiceChannel with
        | Some vc => negb (ChannelType_eqb (ch_type vc) GuildVoice)
        | None => false
        end
  then
    console_error ("The voice channel (" +:+ show channelId
                   +:+ ") is invalid or does not exist ...") ;;
    send channel
      (messageEmbedTemplate "Error"
         ("The voice channel (" +:+ show channelId
          +:+ ") is invalid or does not exist."))
  else if String.eqb action "play" then
    try_catch
      (match voiceChannel with
       | None => throw (TypeError "Cannot read properties of undefined (reading 'id')")
       | Some vc =>
           connection <- joinVoiceChannel joinError (ch_id vc) (ch_guild vc) ;;
           console_log ("Connected to voice channel (" +:+ show channelId +:+ ") ...") ;;
           subscribe connection ;;
           send channel
             (messageEmbedTemplate "Connected"
                ("Now connected and streaming audio to <#" +:+ show channelId +:+ ">"))
       end)
      (fun error =>
         console_error (dropFinalEscape (message_of error) +:+ " ...") ;;
         send channel
           (messageEmbedTemplate "Error"
              ("Cannot connect to voice channel (" +:+ show channelId
               +:+ "). Check logs for more details.")))
  else if String.eqb action "stop" then
    match voiceConnection with
    | Some _ =>
        player_stop ;;
        connection_destroy (guild_id guild) ;;
        match connectedTo with
        | None => throw (TypeError "Cannot read properties of undefined (reading 'id')")
        | Some None => throw (TypeError "Cannot read properties of null (reading 'id')")
        | Some (Some id) =>
            console_log ("Disconnected from voice channel (" +:+ id +:+ ") ...") ;;
            send channel
              (messageEmbedTemplate "Disconnected"
                 ("Now disconnected from <#" +:+ id +:+ ">"))
        end
    | None =>
        console_log "Not connected to any voice channel ..." ;;
        send channel
          (messageEmbedTemplate "Error"
             "Cannot disconnect from voice channel. Check logs for more details.")
    end
  else ret tt.

(** An inbound message: [message.guild] (also [message.channel.guild]), the
    id of [message.channel], [message.mentions.users] as a map from user id
    to username, and [message.content]. *)
Record Message := {
  msg_guild : Guild;
  msg_channel : Snowflake;
  msg_mentions : gmap string string;
  msg_content : string;
}.

Definition helpMenu (mentionedUsername : string) : string :=
  String.concat (nl +:+ nl)
    [ "`@" +:+ mentionedUsername +:+ " help`" +:+ nl
        +:+ "Display the help menu (this list)";
      "`@" +:+ mentionedUsername +:+ " list`" +:+ nl
        +:+ "See a list of available voice channels";
      "`@" +:+ mentionedUsername +:+ " play <channel id>`" +:+ nl
        +:+ "Join channel and start playing audio";
      "`@" +:+ mentionedUsername +:+ " stop`" +:+ nl
        +:+ "Stop playing audio and leave channel" ].

Definition voiceChannelsList (username : string) (guild : Guild) : string :=
  let voiceChannels :=
    List.filter (fun theChannel => ChannelType_eqb (ch_type theChannel) GuildVoice)
      (guild_channels guild) in
  String.concat nl
    (("Use the channel name or ID below with the `join`, `play`, `stop` commands. "
      +:+ "Please make sure these channels are viewable by " +:+ username +:+ "." +:+ nl)
     :: List.map
          (fun theChannel => ch_name theChannel +:+ " ➜ `" +:+ ch_id theChannel +:+ "`")
          voiceChannels).

(** Lines 255-259: the id handed to [voiceController].  A target that is not
    eighteen digits is looked up by name and [.id] is read from the result
    of [find], which is [undefined] when no channel matches. *)
Definition joinChannelId (guild : Guild) (channelId : string) : M Snowflake :=
  if negb (isChannelId channelId) then
    match getVoiceChannelByName guild channelId with
    | Some found => ret (ch_id found)
    | None => throw (TypeError "Cannot read properties of undefined (reading 'id')")
    end
  else ret channelId.

(** The MessageCreate listener, lines 198-270. *)
Definition onMessage (joinError : option JsError) (message : Message) : M unit :=
  s <- get ;;
  let guild := msg_guild message in
  let channel := msg_channel message in
  let mentioned := msg_mentions message in
  let clientId := st_clientId s in
  let parts := split " " (msg_content message) in
  let username := parts !! 0%nat in
  let command := parts !! 1%nat in
  let channelId := parts !! 2%nat in
  match mentioned !! clientId with
  | None => ret tt
  | Some mentionedUsername =>
      when (negb (truthy command) || strictEq command "help")
        (console_log "Displaying command help menu ..." ;;
         send channel
           (messageEmbedTemplate "Command Help Menu" (helpMenu mentionedUsername))) ;;
      when (strictEq command "list")
        (console_log "Displaying voice channel list ..." ;;
         send channel
           (messageEmbedTemplate "Voice Channels List"
              (voiceChannelsList (default "undefined" username) guild))) ;;
      when (strictEq command "play" && truthy channelId)
        (console_log ("Connecting to voice channel (" +:+ show channelId +:+ ") ...") ;;
         id <- joinChannelId guild (show channelId) ;;
         voiceController joinError "play" guild channel (Some id)) ;;
      when (strictEq command "stop")
        (console_log "Disconnecting from voice channel ..." ;;
         voiceController joinError "stop" guild channel None)
  end.



(** The ClientReady listener, lines 51-294: the stream is created, and only
    then are the MessageCreate and SIGINT listeners attached. *)
Definition onClientReady (audioDevice : option Device) : M unit :=
  console_log "Server is ready ..." ;;
  player <- try_catch (createStream audioDevice)
              (fun error =>
                 setStatus "invisible" ;;
                 console_error (message_of error) ;;
                 process_exit 0) ;;
  modify (set_player (Some player)) ;;
  setStatus "online" ;;
  modify (set_listening true).

(** A message reaches [onMessage] only once the listener is attached. *)
Definition deliver (joinError : option JsError) (message : Message) : M unit :=
  s <- get ;;
  if st_listening s then onMessage joinError message else ret tt.

(** The process before ClientReady fires. *)
Definition initialState (clientId : Snowflake) (channels : gmap string Channel)
    (guilds : list Guild) : State :=
  {| st_clientId := clientId; st_channels := channels; st_guilds := guilds;
     st_player := None; st_connections := ∅; st_listening := false;
     st_clientDestroyed := false |}.

(** ** Outcomes

    The messages [voiceController] can send, named as in the outcome surface
    of the specification.  The source has no message for an
    already-connected guild. *)

Inductive Outcome :=
| Connected (channelId : string)
| Disconnected (channelId : string)
| NotConnected
| InvalidTarget (channelRef : string)
| ConnectionFailed (channelId : string).

Definition present (o : Outcome) : Embed :=
  match o with
  | Connected id =>
      messageEmbedTemplate "Connected"
        ("Now connected and streaming audio to <#" +:+ id +:+ ">")
  | Disconnected id =>
      messageEmbedTemplate "Disconnected" ("Now disconnected from <#" +:+ id +:+ ">")
  | NotConnected =>
      messageEmbedTemplate "Error"
        "Cannot disconnect from voice channel. Check logs for more details."
  | InvalidTarget ref =>
      messageEmbedTemplate "Error"
        ("The voice channel (" +:+ ref +:+ ") is invalid or does not exist.")
  | ConnectionFailed id =>
      messageEmbedTemplate "Error"
        ("Cannot connect to voice channel (" +:+ id
         +:+ "). Check logs for more details.")
  end.

(** [r] replied with outcome [o] on [channel]. *)
Definition reports {A} (r : Result A) (channel : Snowflake) (o : Outcome) : Prop :=
  In (Send channel (present o)) (effects r).

(** [id] is cached by the client as a voice channel of guild [guildId]. *)
Definition isVoiceChannelOf (s : State) (guildId id : Snowflake) : Prop :=
  exists vc, st_channels s !! id = Some vc /\ ch_id vc = id
             /\ ch_type vc = GuildVoice /\ ch_guild vc = guildId.

(** The device format the remote side requires. *)
Definition requiredFormat (d : Device) : bool :=
  (dev_defaultSampleRate d =? 48000) && (dev_channels d =? 2) && (dev_bitDepth d =? 16).

(** ** A sample deployment *)

Module Sample.

Definition music : Channel :=
  {| ch_id := "111111111111111111"; ch_name := "Music";
     ch_type := GuildVoice; ch_guild := "900000000000000001" |}.
Definition lounge : Channel :=
  {| ch_id := "222222222222222222"; ch_name := "Lounge";
     ch_type := GuildVoice; ch_guild := "900000000000000001" |}.
Definition general : Channel :=
  {| ch_id := "333333333333333333"; ch_name := "general";
     ch_type := GuildText; ch_guild := "900000000000000001" |}.
Definition stage : Channel :=
  {| ch_id := "444444444444444444"; ch_name := "Radio";
     ch_type := GuildVoice; ch_guild := "900000000000000002" |}.

(** The first guild with a given cached voice state of the bot. *)
Definition home (me : option (option Snowflake)) : Guild :=
  {| guild_id := "900000000000000001"; guild_name := "Home";
     guild_channels := [general; music; lounge]; guild_me_voice := me |}.
Definition other (me : option (option Snowflake)) : Guild :=
  {| guild_id := "900000000000000002"; guild_name := "Other";
     guild_channels := [stage]; guild_me_voice := me |}.

Definition loopback : Device :=
  {| dev_name := "Loopback"; dev_id := 3; dev_defaultSampleRate := 48000;
     dev_channels := 2; dev_bitDepth := 16 |}.
Definition monoMic : Device :=
  {| dev_name := "Mono Mic"; dev_id := 1; dev_defaultSampleRate := 48000;
     dev_channels := 1; dev_bitDepth := 16 |}.
Definition cdDevice : Device :=
  {| dev_name := "CD Out"; dev_id := 2; dev_defaultSampleRate := 44100;
     dev_channels := 2; dev_bitDepth := 16 |}.

Definition boot : State :=
  initialState "700000000000000007"
    (list_to_map [(ch_id music, music); (ch_id lounge, lounge);
                  (ch_id general, general); (ch_id stage, stage)])
    [home None; other None].

(** After a successful start on [loopback]. *)
Definition ready : State := state (onClientReady (Some loopback) boot).

Definition mention (me : option (option Snowflake)) (content : string) : Message :=
  {| msg_guild := home me; msg_channel := "555555555555555555";
     msg_mentions := {[ "700000000000000007" := "AudioBot" ]};
     msg_content := content |}.

(** After [play Music] in the first guild. *)
Definition streaming : State :=
  state (onMessage None (mention None "<@700000000000000007> play Music") ready).

(** After a further [play] in the second guild. *)
Definition streamingBoth : State :=
  state (voiceController None "play" (other None) "666666666666666666"
           (Some "444444444444444444") streaming).

(** Runs referred to below. *)
Definition playLounge : Result unit :=
  onMessage None (mention None "<@700000000000000007> play Lounge") streaming.
Definition playGeneral : Result unit :=
  onMessage None (mention None "<@700000000000000007> play general") ready.
Definition stopUncached : Result unit :=
  onMessage None (mention None "<@700000000000000007> stop") streaming.
Definition playTextChannelId : Result unit :=
  onMessage None (mention None "<@700000000000000007> play 333333333333333333") ready.
Definition playJoinThrows : Result unit :=
  onMessage (Some (Error "Adapter unavailable"))
    (mention None "<@700000000000000007> play Music") ready.
Definition playMusic : Result unit :=
  onMessage None (mention None "<@700000000000000007> play Music") ready.
Definition stopCached : Result unit :=
  onMessage None
    (mention (Some (Some "111111111111111111")) "<@700000000000000007> stop")
    streaming.
Definition playLoungeAfter (stop : Result unit) : Result unit :=
  onMessage None (mention None "<@700000000000000007> play Lounge") (state stop).

End Sample.

(** ** Statements read off the specification

    Each predicate below says, of one run of the source, what a sentence of
    the specification asks of it. *)

(** The player after [player.stop()]. *)
Definition stopped (p : Pipeline) : Pipeline :=
  {| player_status := Idle;
     capture_device := capture_device p;
     capture_started := capture_started p |}.

(** A [play] that is turned down: the connection table is as before and no
    Connected reply is sent. *)
Definition playRefused (s : State) (r : Result unit) : Prop :=
  st_connections (state r) = st_connections s
  /\ forall channel id, ~ reports r channel (Connected id).

(** A [stop] that ends the attachment only: the player and its capture are
    as before, the guild's connection is gone and a Disconnected reply is
    sent. *)
Definition stopDetachesOnly (s : State) (guild : Guild) (channel : Snowflake)
    (r : Result unit) : Prop :=
  st_player (state r) = st_player s
  /\ st_connections (state r) !! guild_id guild = None
  /\ exists id, reports r channel (Disconnected id).

(** A start that is aborted with a non-zero exit status. *)
Definition startupAborts (r : Result unit) : Prop :=
  exists code, completion r = Exit code /\ code <> 0.



Definition decimalDigits : list ascii := list_ascii_of_string "0123456789".

(** A word of a message: no space in it. *)
Fixpoint spaceFree (w : string) : bool :=
  match w with
  | EmptyString => true
  | String c r => negb (Ascii.eqb c " ") && spaceFree r
  end.

(** ** Further definitions *)

(** Line 44 of [initialize]: the first device of [portAudio.getDevices()]
    whose name is the one chosen at the prompt. *)
Definition audioDeviceOf (devices : list Device) (deviceName : string)
  : option Device :=
  List.find (fun device => String.eqb (dev_name device) deviceName) devices.

(** Lines 255-259 as a function: the id a [play] target stands for, if
    any. *)
Definition resolveTarget (guild : Guild) (target : string) : option Snowflake :=
  if isChannelId target then Some target
  else ch_id <$> getVoiceChannelByName guild target.

(** [message] with another text. *)
Definition withContent (message : Message) (content : string) : Message :=
  {| msg_guild := msg_guild message; msg_channel := msg_channel message;
     msg_mentions := msg_mentions message; msg_content := content |}.

(** The state after a series of messages.  Each listener run reads and
    writes the state in one synchronous stretch (its awaits come after), so
    runs are taken one after the other; a run that ends in an error leaves
    the state it had reached. *)
Fixpoint runMessages (inputs : list (option JsError * Message)) (s : State) : State :=
  match inputs with
  | [] => s
  | (joinError, message) :: rest =>
      runMessages rest (state (deliver joinError message s))
  end.

(** The messages sent among the effects of a run, with their channels. *)
Definition replies (done : list Effect) : list (Snowflake * Embed) :=
  flat_map
    (fun e => match e with
              | Send channel embed => [(channel, embed)]
              | _ => []
              end)
    done.

(** Between [s] and [s'] the player object is the same, its capture is as
    it was, and a stopped player has not been started again. *)
Definition playerKept (s s' : State) : Prop :=
  match st_player s, st_player s' with
  | Some p, Some p' =>
      capture_device p' = capture_device p
      /\ capture_started p' = capture_started p
      /\ (player_status p = Idle -> player_status p' = Idle)
  | None, None => True
  | _, _ => False
  end.

(** Between [s] and [s'] nothing of the client has changed. *)
Definition clientKept (s s' : State) : Prop :=
  st_clientId s' = st_clientId s
  /\ st_channels s' = st_channels s
  /\ st_guilds s' = st_guilds s
  /\ st_listening s' = st_listening s
  /\ st_clientDestroyed s' = st_clientDestroyed s.

(** Every connection of the table has the shared player subscribed, is on a
    voice channel of the client cache, and is filed under that channel's
    guild. *)
Definition sessionsWellFormed (s : State) : Prop :=
  forall k c,
    st_connections s !! k = Some c ->
    vc_subscribed c = true
    /\ exists id vc,
         st_channels s !! id = Some vc /\ vc_channel c = ch_id vc
         /\ ch_type vc = GuildVoice /\ ch_guild vc = k.

(** Unfolds one run of the controller. *)
Ltac controller :=
  unfold voiceController, getVoiceConnection, joinVoiceChannel, subscribe,
    player_stop, connection_destroy, try_catch, bind, get, ret, throw, modify,
    emit, console_log, console_error, send; cbn.

(** * Properties *)

(** ** Start-up *)

Section Startup.
Variable d : Device.
Hypothesis wrongRate : dev_defaultSampleRate d <> 48000.

Lemma createStream_throws (s : State) :
  createStream (Some d) s
  = mkResult
      (Throw (Error (dev_name d +:+ " is not a supported audio device ...")))
      s [].
Proof.
  unfold createStream.
  destruct (Z.eqb_spec (dev_defaultSampleRate d) 48000) as [E|E]; [contradiction|].
  reflexivity.
Qed.

Lemma onClientReady_exits (s : State) :
  onClientReady (Some d) s
  = mkResult (Exit 0) s
      [ConsoleLog "Server is ready ..."; SetStatus "invisible";
       ConsoleError (dev_name d +:+ " is not a supported audio device ...");
       ProcessExit 0].
Proof.
  unfold onClientReady, bind, try_catch, console_log, emit.
  cbn -[createStream]. rewrite createStream_throws. reflexivity.
Qed.
End Startup.

Lemma onClientReady_starts (d : Device) (s : State) :
  dev_defaultSampleRate d = 48000 ->
  completion (onClientReady (Some d) s) = Normal tt
  /\ st_listening (state (onClientReady (Some d) s)) = true.
Proof.
  intros E.
  unfold onClientReady, createStream, bind, try_catch, console_log, emit.
  rewrite E. split; reflexivity.
Qed.


(** ** The voice controller *)

Lemma voiceController_stop_idle je s guild channel :
  st_connections s !! guild_id guild = None ->
  voiceController je "stop" guild channel None s
  = mkResult (Normal tt) s
      [ConsoleLog "Not connected to any voice channel ...";
       Send channel (present NotConnected)].
Proof.
  intros H. controller. rewrite H. reflexivity.
Qed.

Lemma voiceController_stop_connected je s guild channel c0 p :
  st_connections s !! guild_id guild = Some c0 ->
  st_player s = Some p ->
  voiceController je "stop" guild channel None s
  = mkResult
      (match guild_me_voice guild with
       | Some (Some _) => Normal tt
       | Some None => Throw (TypeError "Cannot read properties of null (reading 'id')")
       | None => Throw (TypeError "Cannot read properties of undefined (reading 'id')")
       end)
      (set_connections (delete (guild_id guild) (st_connections s))
         (set_player (Some (stopped p)) s))
      ([PlayerStop; ConnectionDestroy (guild_id guild)]
       ++ match guild_me_voice guild with
          | Some (Some id) =>
              [ConsoleLog ("Disconnected from voice channel (" +:+ id +:+ ") ...");
               Send channel (present (Disconnected id))]
          | _ => []
          end).
Proof.
  intros Hc Hp. controller. rewrite Hc. cbn. rewrite Hp. cbn.
  destruct (guild_me_voice guild) as [[id|]|]; reflexivity.
Qed.

Lemma voiceController_play_joined s guild channel target vc p :
  st_channels s !! target = Some vc ->
  ch_type vc = GuildVoice ->
  st_player s = Some p ->
  voiceController None "play" guild channel (Some target) s
  = mkResult (Normal tt)
      (set_connections
         (<[ch_guild vc := {| vc_channel := ch_id vc; vc_subscribed := true |}]>
            (st_connections s)) s)
      [JoinVoiceChannel (ch_id vc) (ch_guild vc);
       ConsoleLog ("Connected to voice channel (" +:+ target +:+ ") ...");
       Subscribe (ch_guild vc);
       Send channel (present (Connected target))].
Proof.
  intros Hv Ht Hp. controller. rewrite Hv. cbn. rewrite Ht. cbn.
  rewrite Hp. cbn. rewrite alter_insert_eq. reflexivity.
Qed.

Lemma voiceController_play_invalid je s guild channel target :
  match st_channels s !! target with
  | Some vc => ch_type vc <> GuildVoice
  | None => True
  end ->
  voiceController je "play" guild channel (Some target) s
  = mkResult (Normal tt) s
      [ConsoleError ("The voice channel (" +:+ target +:+ ") is invalid or does not exist ...");
       Send channel (present (InvalidTarget target))].
Proof.
  intros Hv. controller.
  destruct (st_channels s !! target) as [vc|]; cbn; [|reflexivity].
  destruct (ch_type vc); try reflexivity. contradiction.
Qed.

(** C6.  A device whose default sample rate is not 48000 Hz makes
    [createStream] throw its "is not a supported audio device" error before
    anything is constructed: the call has no effect at all, so during
    start-up no player and no capture stream is created and the [player]
    variable keeps its value. *)
Theorem unsupported_rate_creates_no_player (d : Device) (s : State) :
  dev_defaultSampleRate d <> 48000 ->
  createStream (Some d) s
  = mkResult
      (Throw (Error (dev_name d +:+ " is not a supported audio device ...")))
      s []
  /\ ~ In CreateAudioPlayer (effects (onClientReady (Some d) s))
  /\ ~ In (NewAudioIO (dev_id d)) (effects (onClientReady (Some d) s))
  /\ st_player (state (onClientReady (Some d) s)) = st_player s.
Proof.
  intros H. split; [apply createStream_throws; exact H|].
  rewrite onClientReady_exits by exact H. cbn.
  repeat split; try reflexivity; intros F;
    repeat (destruct F as [F|F]; [discriminate F|]); exact F.
Qed.

Lemma unsupported_rate_creates_no_player_witness :
  dev_defaultSampleRate Sample.cdDevice <> 48000
  /\ createStream (Some Sample.cdDevice) Sample.boot
     = mkResult (Throw (Error "CD Out is not a supported audio device ..."))
         Sample.boot [].
Proof.
  assert (H : dev_defaultSampleRate Sample.cdDevice <> 48000) by (cbn; lia).
  split; [exact H|].
  exact (proj1 (unsupported_rate_creates_no_player Sample.cdDevice Sample.boot H)).
Defined.

(** C5, as stated, fails twice.  A 48000 Hz device with a single channel
    does not have the required format, yet start-up goes through; and a
    44100 Hz device ends start-up with exit status 0. *)
Lemma startup_checks_rate_only :
  requiredFormat Sample.monoMic = false
  /\ completion (onClientReady (Some Sample.monoMic) Sample.boot) = Normal tt
  /\ ~ startupAborts (onClientReady (Some Sample.monoMic) Sample.boot)
  /\ requiredFormat Sample.cdDevice = false
  /\ completion (onClientReady (Some Sample.cdDevice) Sample.boot) = Exit 0
  /\ ~ startupAborts (onClientReady (Some Sample.cdDevice) Sample.boot).
Proof.
  repeat split; try reflexivity.
  - intros [code [H _]]. vm_compute in H. discriminate H.
  - intros [code [H N]]. vm_compute in H. injection H as <-. apply N. reflexivity.
Qed.

(** C5, amended.  Start-up looks at the default sample rate only.  When it
    is not 48000 Hz the process exits during start-up, with the message
    listener not attached, so that no command is ever handled; when it is
    48000 Hz start-up completes and the listener is attached, whatever the
    channel count and bit depth of the descriptor. *)
Theorem wrong_rate_is_fatal_at_startup
    (clientId : Snowflake) (channels : gmap string Channel)
    (guilds : list Guild) (d : Device) :
  let r := onClientReady (Some d) (initialState clientId channels guilds) in
  (dev_defaultSampleRate d <> 48000 ->
     (exists code, completion r = Exit code)
     /\ st_listening (state r) = false
     /\ st_player (state r) = None
     /\ forall je message,
          deliver je message (state r) = mkResult (Normal tt) (state r) [])
  /\ (dev_defaultSampleRate d = 48000 ->
        completion r = Normal tt /\ st_listening (state r) = true).
Proof.
  cbv zeta. split.
  - intros H. rewrite onClientReady_exits by exact H. cbn.
    repeat split; try reflexivity. exists 0. reflexivity.
  - apply onClientReady_starts.
Qed.

Lemma wrong_rate_is_fatal_at_startup_witness :
  dev_defaultSampleRate Sample.cdDevice <> 48000
  /\ st_listening (state (onClientReady (Some Sample.cdDevice) Sample.boot)) = false.
Proof.
  assert (H : dev_defaultSampleRate Sample.cdDevice <> 48000) by (cbn; lia).
  split; [exact H|].
  exact (proj1 (proj2 (proj1
    (wrong_rate_is_fatal_at_startup "700000000000000007" _ _ Sample.cdDevice) H))).
Defined.

(** ** [play] *)

(** C1, as stated, fails.  With the first guild streaming to Music, a
    [play Lounge] is answered with Connected and the guild's connection is
    moved to Lounge. *)
Lemma play_while_streaming_moves_the_connection :
  st_connections Sample.streaming !! "900000000000000001"
  = Some {| vc_channel := "111111111111111111"; vc_subscribed := true |}
  /\ completion Sample.playLounge = Normal tt
  /\ st_connections (state Sample.playLounge) !! "900000000000000001"
     = Some {| vc_channel := "222222222222222222"; vc_subscribed := true |}
  /\ reports Sample.playLounge "555555555555555555" (Connected "222222222222222222")
  /\ ~ playRefused Sample.streaming Sample.playLounge.
Proof.
  assert (R : reports Sample.playLounge "555555555555555555"
                (Connected "222222222222222222")).
  { unfold reports. vm_compute. do 4 right. left. reflexivity. }
  repeat split; try (vm_compute; reflexivity); [exact R|].
  intros [_ N]. exact (N _ _ R).
Qed.

(** C1, amended.  A session that already exists for the guild does not make
    [play] fail.  For a target that is a cached voice channel of the guild,
    and when [joinVoiceChannel] does not throw, the controller joins the
    target, subscribes the shared player, replies Connected with the target,
    and the guild's one connection is now on the target channel; nothing
    else changes. *)
Theorem play_while_connected_reconnects
    (s : State) (guild : Guild) (channel target : Snowflake) (c0 : VoiceConnection) :
  st_connections s !! guild_id guild = Some c0 ->
  isVoiceChannelOf s (guild_id guild) target ->
  is_Some (st_player s) ->
  let r := voiceController None "play" guild channel (Some target) s in
  completion r = Normal tt
  /\ effects r
     = [JoinVoiceChannel target (guild_id guild);
        ConsoleLog ("Connected to voice channel (" +:+ target +:+ ") ...");
        Subscribe (guild_id guild);
        Send channel (present (Connected target))]
  /\ state r
     = set_connections
         (<[guild_id guild := {| vc_channel := target; vc_subscribed := true |}]>
            (st_connections s)) s.
Proof.
  intros _ (vc & Hv & Hid & Hty & Hg) [p Hp]. cbv zeta.
  rewrite (voiceController_play_joined s guild channel target vc p Hv Hty Hp).
  rewrite Hid, Hg. repeat split.
Qed.

Lemma play_while_connected_reconnects_witness :
  st_connections Sample.streaming !! "900000000000000001"
  = Some {| vc_channel := "111111111111111111"; vc_subscribed := true |}
  /\ completion
       (voiceController None "play" (Sample.home None) "555555555555555555"
          (Some "222222222222222222") Sample.streaming) = Normal tt.
Proof.
  assert (H1 : st_connections Sample.streaming !! guild_id (Sample.home None)
               = Some {| vc_channel := "111111111111111111"; vc_subscribed := true |})
    by (vm_compute; reflexivity).
  assert (H2 : isVoiceChannelOf Sample.streaming (guild_id (Sample.home None))
                 "222222222222222222")
    by (exists Sample.lounge; vm_compute; repeat split; reflexivity).
  assert (H3 : is_Some (st_player Sample.streaming))
    by (vm_compute; eexists; reflexivity).
  split; [exact H1|].
  exact (proj1 (play_while_connected_reconnects Sample.streaming (Sample.home None)
                  "555555555555555555" "222222222222222222" _ H1 H2 H3)).
Defined.

(** ** [stop] *)

(** C4, as stated, fails.  With the first guild streaming and the bot's
    member not cached, [stop] stops the shared player, destroys the
    connection and then throws on [connectedTo.id]: no Disconnected reply
    is sent, and the player is not as it was. *)
Lemma stop_stops_the_player_and_may_throw :
  is_Some (st_connections Sample.streaming !! "900000000000000001")
  /\ completion Sample.stopUncached
     = Throw (TypeError "Cannot read properties of undefined (reading 'id')")
  /\ effects Sample.stopUncached
     = [ConsoleLog "Disconnecting from voice channel ..."; PlayerStop;
        ConnectionDestroy "900000000000000001"]
  /\ (player_status <$> st_player Sample.streaming) = Some Playing
  /\ (player_status <$> st_player (state Sample.stopUncached)) = Some Idle
  /\ ~ stopDetachesOnly Sample.streaming (Sample.home None)
         "555555555555555555" Sample.stopUncached.
Proof.
  repeat split; try (vm_compute; reflexivity).
  - vm_compute. eexists; reflexivity.
  - intros [H _]. vm_compute in H. discriminate H.
Qed.

(** C4, amended.  A [stop] issued while the guild has a session calls
    [player.stop()] on the shared player, which leaves the capture stream
    and the player object in place, then destroys the guild's connection,
    which removes the session; nothing else changes.  When the bot's cached
    voice state names a channel, the handler completes and replies
    Disconnected with that channel. *)
Theorem stop_with_session
    (je : option JsError) (s : State) (guild : Guild) (channel : Snowflake)
    (c0 : VoiceConnection) (p : Pipeline) :
  st_connections s !! guild_id guild = Some c0 ->
  st_player s = Some p ->
  let r := voiceController je "stop" guild channel None s in
  state r
  = set_connections (delete (guild_id guild) (st_connections s))
      (set_player (Some (stopped p)) s)
  /\ capture_started (stopped p) = capture_started p
  /\ capture_device (stopped p) = capture_device p
  /\ st_connections (state r) !! guild_id guild = None
  /\ (exists rest, effects r = PlayerStop :: ConnectionDestroy (guild_id guild) :: rest)
  /\ forall id, guild_me_voice guild = Some (Some id) ->
       completion r = Normal tt
       /\ effects r
          = [PlayerStop; ConnectionDestroy (guild_id guild);
             ConsoleLog ("Disconnected from voice channel (" +:+ id +:+ ") ...");
             Send channel (present (Disconnected id))].
Proof.
  intros Hc Hp. cbv zeta.
  rewrite (voiceController_stop_connected je s guild channel c0 p Hc Hp). cbn.
  repeat split.
  - apply lookup_delete_eq.
  - eexists; reflexivity.
  - rewrite H. reflexivity.
  - rewrite H. reflexivity.
Qed.

Lemma stop_with_session_witness :
  st_connections Sample.streaming !! "900000000000000001"
  = Some {| vc_channel := "111111111111111111"; vc_subscribed := true |}
  /\ st_connections
       (state (voiceController None "stop" (Sample.home (Some (Some "111111111111111111")))
                 "555555555555555555" None Sample.streaming))
     !! "900000000000000001" = None.
Proof.
  assert (H1 : st_connections Sample.streaming
               !! guild_id (Sample.home (Some (Some "111111111111111111")))
               = Some {| vc_channel := "111111111111111111"; vc_subscribed := true |})
    by (vm_compute; reflexivity).
  assert (H2 : st_player Sample.streaming
               = Some {| player_status := Playing; capture_device := 3;
                         capture_started := true |})
    by (vm_compute; reflexivity).
  split; [exact H1|].
  exact (proj1 (proj2 (proj2 (proj2
    (stop_with_session None Sample.streaming
       (Sample.home (Some (Some "111111111111111111")))
       "555555555555555555" _ _ H1 H2))))).
Defined.

(** C7.  [stop] for a guild without a session replies NotConnected and
    leaves the whole state as it was.  In particular, after any [stop] for
    a guild, a second [stop] for it finds no session, replies NotConnected
    and changes nothing. *)
Theorem stop_without_session
    (je : option JsError) (s : State) (guild : Guild) (channel : Snowflake) :
  (st_connections s !! guild_id guild = None ->
     voiceController je "stop" guild channel None s
     = mkResult (Normal tt) s
         [ConsoleLog "Not connected to any voice channel ...";
          Send channel (present NotConnected)])
  /\ (is_Some (st_player s) ->
      forall (je' : option JsError) (guild' : Guild) (channel' : Snowflake),
        guild_id guild' = guild_id guild ->
        let r1 := voiceController je "stop" guild channel None s in
        voiceController je' "stop" guild' channel' None (state r1)
        = mkResult (Normal tt) (state r1)
            [ConsoleLog "Not connected to any voice channel ...";
             Send channel' (present NotConnected)]).
Proof.
  split.
  - apply voiceController_stop_idle.
  - intros [p Hp] je' guild' channel' Hg. cbv zeta.
    apply voiceController_stop_idle. rewrite Hg.
    destruct (st_connections s !! guild_id guild) as [c0|] eqn:Hc.
    + rewrite (voiceController_stop_connected je s guild channel c0 p Hc Hp).
      cbn. apply lookup_delete_eq.
    + rewrite (voiceController_stop_idle je s guild channel Hc). exact Hc.
Qed.

Lemma stop_without_session_witness :
  st_connections Sample.ready !! "900000000000000001" = None
  /\ voiceController None "stop" (Sample.home None) "555555555555555555" None Sample.ready
     = mkResult (Normal tt) Sample.ready
         [ConsoleLog "Not connected to any voice channel ...";
          Send "555555555555555555" (present NotConnected)].
Proof.
  assert (H : st_connections Sample.ready !! guild_id (Sample.home None) = None)
    by (vm_compute; reflexivity).
  split; [exact H|].
  exact (proj1 (stop_without_session None Sample.ready (Sample.home None)
                  "555555555555555555") H).
Defined.

(** ** [play], [stop], [play] *)

(** The three controller calls [play A], [stop], [play B] applied one after
    the other, each to the state the one before left: both [play]s reply
    Connected, the [stop] removes the session, and the session ends on [B].
    The [stop] completes and replies Disconnected only when the bot's
    cached voice state names a channel. *)
Lemma play_stop_play
    (s : State) (G A B : Snowflake) (g1 g2 g3 : Guild) (c1 c2 c3 : Snowflake) :
  guild_id g1 = G -> guild_id g2 = G -> guild_id g3 = G ->
  isVoiceChannelOf s G A ->
  isVoiceChannelOf s G B ->
  is_Some (st_player s) ->
  let r1 := voiceController None "play" g1 c1 (Some A) s in
  let r2 := voiceController None "stop" g2 c2 None (state r1) in
  let r3 := voiceController None "play" g3 c3 (Some B) (state r2) in
  (completion r1 = Normal tt /\ reports r1 c1 (Connected A)
   /\ st_connections (state r1) !! G
      = Some {| vc_channel := A; vc_subscribed := true |})
  /\ (st_connections (state r2) !! G = None
      /\ forall id, guild_me_voice g2 = Some (Some id) ->
           completion r2 = Normal tt /\ reports r2 c2 (Disconnected id))
  /\ (completion r3 = Normal tt /\ reports r3 c3 (Connected B)
      /\ st_connections (state r3) !! G
         = Some {| vc_channel := B; vc_subscribed := true |}).
Proof.
  intros E1 E2 E3 (va & Ha & Hida & Htya & Hga) (vb & Hb & Hidb & Htyb & Hgb) [p Hp].
  cbv zeta.
  rewrite (voiceController_play_joined s g1 c1 A va p Ha Htya Hp).
  rewrite Hida, Hga. cbn [state completion effects].
  set (s1 := set_connections _ s).
  assert (Hc1 : st_connections s1 !! guild_id g2
                = Some {| vc_channel := A; vc_subscribed := true |}).
  { rewrite E2. subst s1. cbn. apply lookup_insert_eq. }
  assert (Hp1 : st_player s1 = Some p) by exact Hp.
  rewrite (voiceController_stop_connected None s1 g2 c2 _ p Hc1 Hp1).
  cbn [state completion effects].
  set (s2 := set_connections _ (set_player _ s1)).
  assert (Hb2 : st_channels s2 !! B = Some vb) by exact Hb.
  assert (Hp2 : st_player s2 = Some (stopped p)) by reflexivity.
  rewrite (voiceController_play_joined s2 g3 c3 B vb _ Hb2 Htyb Hp2).
  rewrite Hidb, Hgb. cbn [state completion effects].
  repeat split.
  - unfold reports. cbn. do 3 right. left. reflexivity.
  - rewrite <- E2. exact Hc1.
  - subst s2. cbn. rewrite <- E2. apply lookup_delete_eq.
  - rewrite H. reflexivity.
  - unfold reports. cbn [effects]. rewrite H. cbn. do 3 right. left. reflexivity.
  - unfold reports. cbn. do 3 right. left. reflexivity.
  - cbn. apply lookup_insert_eq.
Qed.

Lemma play_stop_play_witness :
  isVoiceChannelOf Sample.ready "900000000000000001" "222222222222222222"
  /\ st_connections
       (state
          (voiceController None "play" (Sample.home None) "555555555555555555"
             (Some "222222222222222222")
             (state
                (voiceController None "stop" (Sample.home None) "555555555555555555" None
                   (state
                      (voiceController None "play" (Sample.home None)
                         "555555555555555555" (Some "111111111111111111")
                         Sample.ready))))))
     !! "900000000000000001"
     = Some {| vc_channel := "222222222222222222"; vc_subscribed := true |}.
Proof.
  assert (HA : isVoiceChannelOf Sample.ready "900000000000000001" "111111111111111111")
    by (exists Sample.music; vm_compute; repeat split; reflexivity).
  assert (HB : isVoiceChannelOf Sample.ready "900000000000000001" "222222222222222222")
    by (exists Sample.lounge; vm_compute; repeat split; reflexivity).
  assert (HP : is_Some (st_player Sample.ready))
    by (vm_compute; eexists; reflexivity).
  split; [exact HB|].
  exact (proj2 (proj2 (proj2 (proj2
    (play_stop_play Sample.ready "900000000000000001"
       "111111111111111111" "222222222222222222"
       (Sample.home None) (Sample.home None) (Sample.home None)
       "555555555555555555" "555555555555555555" "555555555555555555"
       eq_refl eq_refl eq_refl HA HB HP))))).
Defined.

(** C9.  [play Music], [stop], [play Lounge] in one guild.  A [stop] that
    arrives while the bot's member is not yet in the guild's member cache
    tears the session down and then throws on [connectedTo.id]: the
    listener ends in an uncaught TypeError and no reply is sent, so the
    sequence does not go through.  With the voice state cached the same
    commands succeed and the session ends on Lounge with the player
    subscribed. *)
Lemma play_stop_play_needs_the_cached_voice_state :
  (completion Sample.playMusic = Normal tt
   /\ reports Sample.playMusic "555555555555555555" (Connected "111111111111111111")
   /\ state Sample.playMusic = Sample.streaming)
  /\ (completion Sample.stopUncached
      = Throw (TypeError "Cannot read properties of undefined (reading 'id')")
      /\ replies (effects Sample.stopUncached) = [])
  /\ (completion Sample.stopCached = Normal tt
      /\ reports Sample.stopCached "555555555555555555"
           (Disconnected "111111111111111111")
      /\ completion (Sample.playLoungeAfter Sample.stopCached) = Normal tt
      /\ reports (Sample.playLoungeAfter Sample.stopCached) "555555555555555555"
           (Connected "222222222222222222")
      /\ st_connections (state (Sample.playLoungeAfter Sample.stopCached))
         !! "900000000000000001"
         = Some {| vc_channel := "222222222222222222"; vc_subscribed := true |}).
Proof.
  repeat split; try (vm_compute; reflexivity).
  - unfold reports. vm_compute. do 4 right. left. reflexivity.
  - unfold reports. vm_compute. do 4 right. left. reflexivity.
  - unfold reports. vm_compute. do 4 right. left. reflexivity.
Qed.

(** ** Shutdown *)









(** ** Target resolution *)

Lemma isDigit_decimal (c : ascii) : isDigit c = true <-> In c decimalDigits.
Proof.
  assert (E : isDigit c = existsb (Ascii.eqb c) decimalDigits)
    by (destruct c as [[] [] [] [] [] [] [] []]; reflexivity).
  rewrite E, existsb_exists. split.
  - intros (x & Hx & Hc). apply Ascii.eqb_eq in Hc. subst x. exact Hx.
  - intros H. exists c. split; [exact H|]. apply Ascii.eqb_refl.
Qed.

Lemma matchDigits_spec (n : nat) (s : string) :
  matchDigits n s = true
  <-> String.length s = n
      /\ forall c, In c (list_ascii_of_string s) -> In c decimalDigits.
Proof.
  revert s. induction n as [|n IH]; intros [|c r]; cbn.
  - split; [intros _; split; [reflexivity|intros c []]|reflexivity].
  - split; [discriminate|intros [H _]; discriminate H].
  - split; [discriminate|intros [H _]; discriminate H].
  - rewrite andb_true_iff, IH, isDigit_decimal. split.
    + intros (Hc & Hl & Hr). split; [congruence|].
      intros x [<-|Hx]; [exact Hc|apply Hr; exact Hx].
    + intros (Hl & Hr). split; [apply Hr; left; reflexivity|].
      split; [congruence|]. intros x Hx. apply Hr. right. exact Hx.
Qed.

Lemma find_voice_channel (guild : Guild) (name : string) :
  match getVoiceChannelByName guild name with
  | Some found =>
      In found (guild_channels guild)
      /\ ch_type found = GuildVoice /\ ch_name found = name
  | None =>
      forall c, In c (guild_channels guild) ->
                ch_type c = GuildVoice -> ch_name c <> name
  end.
Proof.
  unfold getVoiceChannelByName.
  destruct (List.find _ (guild_channels guild)) as [found|] eqn:F.
  - apply find_some in F. destruct F as [Hin Hb].
    apply andb_true_iff in Hb. destruct Hb as [Ht Hn].
    apply String.eqb_eq in Hn.
    repeat split; try assumption. destruct (ch_type found); try discriminate Ht.
    reflexivity.
  - intros c Hin Ht Hn.
    pose proof (find_none _ _ F c Hin) as N. cbn in N.
    rewrite Ht, Hn, String.eqb_refl in N. discriminate N.
Qed.

(** ** Parsing of the message *)

Lemma split_spaceFree (w : string) : spaceFree w = true -> split " " w = [w].
Proof.
  induction w as [|c r IH]; cbn [split spaceFree]; [reflexivity|].
  intros H. apply andb_true_iff in H. destruct H as [Hc Hr].
  apply negb_true_iff in Hc. rewrite Hc, (IH Hr). reflexivity.
Qed.

Lemma split_word (w rest : string) :
  spaceFree w = true ->
  split " " (w +:+ String " " rest) = w :: split " " rest.
Proof.
  induction w as [|c r IH]; [intros _; reflexivity|].
  change (String c r +:+ String " " rest) with (String c (r +:+ String " " rest)).
  cbn [split spaceFree]. intros H. apply andb_true_iff in H. destruct H as [Hc Hr].
  apply negb_true_iff in Hc. rewrite Hc, (IH Hr). reflexivity.
Qed.

Lemma bind_ret_l {A B} (a : A) (f : A -> M B) (s : State) :
  bind (ret a) f s = f a s.
Proof. unfold bind, ret. destruct (f a s). reflexivity. Qed.

Lemma bind_ret_r {A} (m : M A) (s : State) :
  bind m (fun a => ret a) s = m s.
Proof.
  unfold bind, ret. destruct (m s) as [[a|e|c] s' t]; try reflexivity.
  rewrite app_nil_r. reflexivity.
Qed.

Lemma bind_ret_tt (m : M unit) (s : State) :
  bind m (fun _ => ret tt) s = m s.
Proof.
  unfold bind, ret. destruct (m s) as [[[]|e|c] s' t]; try reflexivity.
  rewrite app_nil_r. reflexivity.
Qed.

Lemma onMessage_play (je : option JsError) (message : Message) (s : State)
    (mentionedUsername user target : string) :
  msg_mentions message !! st_clientId s = Some mentionedUsername ->
  spaceFree user = true -> spaceFree target = true -> target <> "" ->
  msg_content message = user +:+ " play " +:+ target ->
  onMessage je message s
  = (console_log ("Connecting to voice channel (" +:+ target +:+ ") ...") ;;
     id <- joinChannelId (msg_guild message) target ;;
     voiceController je "play" (msg_guild message) (msg_channel message) (Some id)) s.
Proof.
  intros Hm Hu Ht Hne Hc.
  assert (Hp : split " " (msg_content message) = [user; "play"; target]).
  { rewrite Hc.
    change (" play " +:+ target) with (String " " ("play" +:+ String " " target)).
    rewrite (split_word user) by exact Hu.
    rewrite (split_word "play") by reflexivity.
    rewrite split_spaceFree by exact Ht. reflexivity. }
  unfold onMessage. unfold bind at 1. unfold get at 1.
  rewrite Hp, Hm. cbn [lookup list_lookup strictEq truthy show].
  assert (Hneb : negb (String.eqb target "") = true).
  { apply negb_true_iff, String.eqb_neq. exact Hne. }
  rewrite Hneb. cbn [String.eqb Ascii.eqb Bool.eqb negb orb andb when].
  rewrite !bind_ret_l, bind_ret_tt.
  destruct ((console_log _ ;; _) s) as [c s' t]. reflexivity.
Qed.

Lemma onMessage_stop (je : option JsError) (message : Message) (s : State)
    (mentionedUsername user : string) :
  msg_mentions message !! st_clientId s = Some mentionedUsername ->
  spaceFree user = true ->
  msg_content message = user +:+ " stop" ->
  onMessage je message s
  = (console_log "Disconnecting from voice channel ..." ;;
     voiceController je "stop" (msg_guild message) (msg_channel message) None) s.
Proof.
  intros Hm Hu Hc.
  assert (Hp : split " " (msg_content message) = [user; "stop"]).
  { rewrite Hc. change (" stop") with (String " " "stop").
    rewrite (split_word user) by exact Hu. reflexivity. }
  unfold onMessage. unfold bind at 1. unfold get at 1.
  rewrite Hp, Hm. cbn [lookup list_lookup strictEq truthy show].
  cbn [String.eqb Ascii.eqb Bool.eqb negb orb andb when].
  rewrite !bind_ret_l.
  destruct ((console_log _ ;; _) s) as [c s' t]. reflexivity.
Qed.

(** A [play] whose target is not an id and names no voice channel of the
    guild: the handler throws after its first console line. *)
Lemma onMessage_play_unresolved (je : option JsError) (message : Message)
    (s : State) (mentionedUsername user target : string) :
  msg_mentions message !! st_clientId s = Some mentionedUsername ->
  spaceFree user = true -> spaceFree target = true -> target <> "" ->
  msg_content message = user +:+ " play " +:+ target ->
  isChannelId target = false ->
  getVoiceChannelByName (msg_guild message) target = None ->
  onMessage je message s
  = mkResult
      (Throw (TypeError "Cannot read properties of undefined (reading 'id')"))
      s [ConsoleLog ("Connecting to voice channel (" +:+ target +:+ ") ...")].
Proof.
  intros Hm Hu Ht Hne Hc Hid Hf.
  rewrite (onMessage_play je message s mentionedUsername user target Hm Hu Ht Hne Hc).
  unfold bind, console_log, emit, joinChannelId. rewrite Hid, Hf. reflexivity.
Qed.

(** C10.  A [play] target is used as a channel id exactly when it is made
    of eighteen decimal digits.  Every other target, a string of seventeen
    or nineteen digits included, is looked up among the guild's voice
    channels by strict equality of names, and the id of the channel found
    is used; when none is found, reading [.id] throws.  The handler passes
    the id so obtained to the controller. *)
Theorem target_is_an_id_iff_eighteen_digits
    (guild : Guild) (target : string) (s : State) :
  (isChannelId target = true
   <-> String.length target = 18%nat
       /\ forall c, In c (list_ascii_of_string target) -> In c decimalDigits)
  /\ (isChannelId target = true ->
        joinChannelId guild target s = mkResult (Normal target) s [])
  /\ (isChannelId target = false ->
        match getVoiceChannelByName guild target with
        | Some found =>
            joinChannelId guild target s = mkResult (Normal (ch_id found)) s []
            /\ In found (guild_channels guild)
            /\ ch_type found = GuildVoice
            /\ ch_name found = target
        | None =>
            joinChannelId guild target s
            = mkResult
                (Throw (TypeError "Cannot read properties of undefined (reading 'id')"))
                s []
            /\ forall c, In c (guild_channels guild) ->
                         ch_type c = GuildVoice -> ch_name c <> target
        end)
  /\ (forall je message mentionedUsername user,
        msg_guild message = guild ->
        msg_mentions message !! st_clientId s = Some mentionedUsername ->
        spaceFree user = true -> spaceFree target = true -> target <> "" ->
        msg_content message = user +:+ " play " +:+ target ->
        onMessage je message s
        = (console_log ("Connecting to voice channel (" +:+ target +:+ ") ...") ;;
           id <- joinChannelId guild target ;;
           voiceController je "play" guild (msg_channel message) (Some id)) s).
Proof.
  split; [apply matchDigits_spec|].
  split; [intros H; unfold joinChannelId; rewrite H; reflexivity|].
  split.
  - intros H. unfold joinChannelId. rewrite H. cbn [negb].
    pose proof (find_voice_channel guild target) as F.
    destruct (getVoiceChannelByName guild target) as [found|].
    + split; [reflexivity|exact F].
    + split; [reflexivity|exact F].
  - intros je message mentionedUsername user <- Hm Hu Ht Hne Hc.
    exact (onMessage_play je message s mentionedUsername user target Hm Hu Ht Hne Hc).
Qed.

Lemma target_is_an_id_iff_eighteen_digits_witness :
  isChannelId "1234567890123456789" = false
  /\ getVoiceChannelByName (Sample.home None) "1234567890123456789" = None
  /\ joinChannelId (Sample.home None) "1234567890123456789" Sample.ready
     = mkResult
         (Throw (TypeError "Cannot read properties of undefined (reading 'id')"))
         Sample.ready [].
Proof.
  assert (H : isChannelId "1234567890123456789" = false) by reflexivity.
  split; [exact H|]. split; [reflexivity|].
  exact (proj1 (proj1 (proj2 (proj2
    (target_is_an_id_iff_eighteen_digits (Sample.home None)
       "1234567890123456789" Sample.ready))) H)).
Defined.

Example seventeen_digits_is_a_name : isChannelId "12345678901234567" = false.
Proof. reflexivity. Qed.

Example eighteen_digits_is_an_id : isChannelId "123456789012345678" = true.
Proof. reflexivity. Qed.

Example name_lookup_is_case_sensitive :
  getVoiceChannelByName (Sample.home None) "music" = None
  /\ getVoiceChannelByName (Sample.home None) "Music" = Some Sample.music.
Proof. split; reflexivity. Qed.

(** ** Failures in the handler *)

(** C2.  [play general], where the guild's only channel named general is a
    text channel: the name lookup finds nothing, reading [.id] throws
    before the controller is called, and no reply is sent, so the
    requester gets no InvalidTarget; the state is unchanged and nothing is
    joined.  An eighteen-digit id of that same text channel does get the
    InvalidTarget reply. *)
Lemma play_unknown_name_gets_no_reply :
  getVoiceChannelByName (Sample.home None) "general" = None
  /\ completion Sample.playGeneral
     = Throw (TypeError "Cannot read properties of undefined (reading 'id')")
  /\ effects Sample.playGeneral
     = [ConsoleLog "Connecting to voice channel (general) ..."]
  /\ state Sample.playGeneral = Sample.ready
  /\ completion Sample.playTextChannelId = Normal tt
  /\ reports Sample.playTextChannelId "555555555555555555"
       (InvalidTarget "333333333333333333")
  /\ state Sample.playTextChannelId = Sample.ready.
Proof.
  repeat split; try (vm_compute; reflexivity).
  unfold reports. vm_compute. do 2 right. left. reflexivity.
Qed.

(** C3.  Two errors leave the handler uncaught: the TypeError of a [play]
    whose target names no voice channel, and the TypeError of a [stop]
    issued while the guild has a session and the bot's member is not
    cached.  An error thrown by [joinVoiceChannel] is caught and answered
    with the connection-failure message. *)
Lemma handler_errors_escape :
  completion Sample.playGeneral
  = Throw (TypeError "Cannot read properties of undefined (reading 'id')")
  /\ (forall channel o, ~ reports Sample.playGeneral channel o)
  /\ completion Sample.stopUncached
     = Throw (TypeError "Cannot read properties of undefined (reading 'id')")
  /\ (forall channel o, ~ reports Sample.stopUncached channel o)
  /\ completion Sample.playJoinThrows = Normal tt
  /\ reports Sample.playJoinThrows "555555555555555555"
       (ConnectionFailed "111111111111111111").
Proof.
  repeat split; try (vm_compute; reflexivity).
  - intros channel o F. unfold reports in F. vm_compute in F.
    destruct F as [F|F]; [discriminate F|exact F].
  - intros channel o F. unfold reports in F.
    change (effects Sample.stopUncached)
      with [ConsoleLog "Disconnecting from voice channel ..."; PlayerStop;
            ConnectionDestroy "900000000000000001"] in F.
    repeat (destruct F as [F|F]; [discriminate F|]). exact F.
  - unfold reports. vm_compute. do 3 right. left. reflexivity.
Qed.

(** * Further properties *)

(** ** The shape of a listener run *)

Lemma result_eta {A} (r : Result A) :
  match r with
  | mkResult c s t => mkResult c s ([] ++ t)
  end = r.
Proof. destruct r; reflexivity. Qed.

Lemma strictEq_false (c lit : string) :
  c <> lit -> strictEq (Some c) lit = false.
Proof. intros N. cbn. apply String.eqb_neq. exact N. Qed.

Lemma onMessage_dispatch (je : option JsError) (message : Message) (s : State) :
  onMessage je message s
  = match msg_mentions message !! st_clientId s with
    | None => mkResult (Normal tt) s []
    | Some mentionedUsername =>
        let parts := split " " (msg_content message) in
        let command := parts !! 1%nat in
        let channelId := parts !! 2%nat in
        if negb (truthy command) || strictEq command "help" then
          mkResult (Normal tt) s
            [ConsoleLog "Displaying command help menu ...";
             Send (msg_channel message)
               (messageEmbedTemplate "Command Help Menu" (helpMenu mentionedUsername))]
        else if strictEq command "list" then
          mkResult (Normal tt) s
            [ConsoleLog "Displaying voice channel list ...";
             Send (msg_channel message)
               (messageEmbedTemplate "Voice Channels List"
                  (voiceChannelsList (default "undefined" (parts !! 0%nat))
                     (msg_guild message)))]
        else if strictEq command "play" then
          if truthy channelId then
            (console_log ("Connecting to voice channel (" +:+ show channelId +:+ ") ...") ;;
             id <- joinChannelId (msg_guild message) (show channelId) ;;
             voiceController je "play" (msg_guild message) (msg_channel message) (Some id)) s
          else mkResult (Normal tt) s []
        else if strictEq command "stop" then
          (console_log "Disconnecting from voice channel ..." ;;
           voiceController je "stop" (msg_guild message) (msg_channel message) None) s
        else mkResult (Normal tt) s []
    end.
Proof.
  unfold onMessage. unfold bind at 1. unfold get at 1.
  destruct (msg_mentions message !! st_clientId s) as [u|]; [|reflexivity].
  cbv zeta.
  generalize (default "undefined" (split " " (msg_content message) !! 0%nat)).
  generalize (split " " (msg_content message) !! 2%nat).
  generalize (split " " (msg_content message) !! 1%nat).
  intros command channelId username.
  destruct command as [c|]; [|reflexivity].
  destruct (String.eqb_spec c "") as [->|N0]; [reflexivity|].
  destruct (String.eqb_spec c "help") as [->|N1]; [reflexivity|].
  destruct (String.eqb_spec c "list") as [->|N2]; [reflexivity|].
  destruct (String.eqb_spec c "play") as [->|N3].
  { cbn [strictEq truthy String.eqb Ascii.eqb Bool.eqb negb orb andb when].
    destruct channelId as [t|]; [|reflexivity].
    cbn [truthy]. destruct (String.eqb t ""); [reflexivity|].
    cbn [negb when]. rewrite !bind_ret_l, bind_ret_tt. apply result_eta. }
  destruct (String.eqb_spec c "stop") as [->|N4].
  { cbn [strictEq truthy String.eqb Ascii.eqb Bool.eqb negb orb andb when].
    rewrite !bind_ret_l. apply result_eta. }
  cbn [truthy]. rewrite !strictEq_false by assumption.
  apply String.eqb_neq in N0. rewrite N0. reflexivity.
Qed.
Lemma voiceController_play_failed s guild channel target vc e :
  st_channels s !! target = Some vc ->
  ch_type vc = GuildVoice ->
  voiceController (Some e) "play" guild channel (Some target) s
  = mkResult (Normal tt) s
      [JoinVoiceChannel (ch_id vc) (ch_guild vc);
       ConsoleError (dropFinalEscape (message_of e) +:+ " ...");
       Send channel (present (ConnectionFailed target))].
Proof.
  intros Hv Ht. controller. rewrite Hv. cbn. rewrite Ht. reflexivity.
Qed.

Lemma voiceController_play_state je s guild channel target :
  let s' := state (voiceController je "play" guild channel (Some target) s) in
  s' = s
  \/ exists vc sub,
       st_channels s !! target = Some vc /\ ch_type vc = GuildVoice
       /\ (is_Some (st_player s) -> sub = true)
       /\ s' = set_connections
                 (<[ch_guild vc := {| vc_channel := ch_id vc; vc_subscribed := sub |}]>
                    (st_connections s)) s.
Proof.
  cbv zeta.
  destruct (st_channels s !! target) as [vc|] eqn:Hv.
  2:{ left. rewrite voiceController_play_invalid by (rewrite Hv; exact I). reflexivity. }
  assert (D : ch_type vc = GuildVoice \/ ch_type vc <> GuildVoice)
    by (destruct (ch_type vc); (left; reflexivity) || (right; discriminate)).
  destruct D as [Ht|Ht].
  2:{ left. rewrite voiceController_play_invalid by (rewrite Hv; exact Ht). reflexivity. }
  destruct je as [e|].
  { left. rewrite (voiceController_play_failed s guild channel target vc e Hv Ht).
    reflexivity. }
  destruct (st_player s) as [p|] eqn:Hp.
  - right. exists vc, true. repeat split; try assumption.
    rewrite (voiceController_play_joined s guild channel target vc p Hv Ht Hp).
    reflexivity.
  - right.
    exists vc, (match st_connections s !! ch_guild vc with
                | Some c => vc_subscribed c | None => false end).
    repeat split; try assumption.
    + intros [x Hx]. discriminate Hx.
    + controller. rewrite Hv. cbn. rewrite Ht. cbn. rewrite Hp. reflexivity.
Qed.

Lemma voiceController_stop_state je s guild channel :
  let s' := state (voiceController je "stop" guild channel None s) in
  s' = s
  \/ exists p c0,
       st_player s = Some p
       /\ st_connections s !! guild_id guild = Some c0
       /\ s' = set_connections (delete (guild_id guild) (st_connections s))
                 (set_player (Some (stopped p)) s).
Proof.
  cbv zeta.
  destruct (st_connections s !! guild_id guild) as [c0|] eqn:Hc.
  2:{ left. rewrite voiceController_stop_idle by exact Hc. reflexivity. }
  destruct (st_player s) as [p|] eqn:Hp.
  - right. exists p, c0. repeat split.
    rewrite (voiceController_stop_connected je s guild channel c0 p Hc Hp).
    reflexivity.
  - left. controller. rewrite Hc. cbn. rewrite Hp. reflexivity.
Qed.

Lemma state_log_then {A} (line : string) (m : M A) (s : State) :
  state ((console_log line ;; m) s) = state (m s).
Proof.
  unfold bind, console_log, emit. destruct (m s) as [c s' t]. reflexivity.
Qed.

Lemma effects_log_then {A} (line : string) (m : M A) (s : State) :
  effects ((console_log line ;; m) s) = ConsoleLog line :: effects (m s).
Proof.
  unfold bind, console_log, emit. destruct (m s) as [c s' t]. reflexivity.
Qed.

Lemma completion_log_then {A} (line : string) (m : M A) (s : State) :
  completion ((console_log line ;; m) s) = completion (m s).
Proof.
  unfold bind, console_log, emit. destruct (m s) as [c s' t]. reflexivity.
Qed.

Lemma joinChannelId_run (guild : Guild) (target : string) (s : State) :
  joinChannelId guild target s
  = match resolveTarget guild target with
    | Some id => mkResult (Normal id) s []
    | None =>
        mkResult (Throw (TypeError "Cannot read properties of undefined (reading 'id')"))
          s []
    end.
Proof.
  unfold joinChannelId, resolveTarget.
  destruct (isChannelId target); cbn; [reflexivity|].
  destruct (getVoiceChannelByName guild target); reflexivity.
Qed.

Lemma play_branch_run {A} (guild : Guild) (target : string) (k : Snowflake -> M A)
    (s : State) :
  (id <- joinChannelId guild target ;; k id) s
  = match resolveTarget guild target with
    | Some id => k id s
    | None =>
        mkResult (Throw (TypeError "Cannot read properties of undefined (reading 'id')"))
          s []
    end.
Proof.
  unfold bind. rewrite joinChannelId_run.
  destruct (resolveTarget guild target) as [id|]; [|reflexivity].
  apply result_eta.
Qed.

Lemma onMessage_state
    (je : option JsError) (message : Message) (s : State) :
  let s' := state (onMessage je message s) in
  s' = s
  \/ (exists id vc sub,
        st_channels s !! id = Some vc /\ ch_type vc = GuildVoice
        /\ (is_Some (st_player s) -> sub = true)
        /\ s' = set_connections
                  (<[ch_guild vc := {| vc_channel := ch_id vc; vc_subscribed := sub |}]>
                     (st_connections s)) s)
  \/ (exists p c0,
        st_player s = Some p
        /\ st_connections s !! guild_id (msg_guild message) = Some c0
        /\ s' = set_connections
                  (delete (guild_id (msg_guild message)) (st_connections s))
                  (set_player (Some (stopped p)) s)).
Proof.
  cbv zeta. rewrite onMessage_dispatch.
  destruct (msg_mentions message !! st_clientId s) as [u|]; [|left; reflexivity].
  cbv zeta.
  destruct (negb _ || _); [left; reflexivity|].
  destruct (strictEq _ "list"); [left; reflexivity|].
  destruct (strictEq _ "play").
  { destruct (truthy _); [|left; reflexivity].
    rewrite state_log_then, play_branch_run.
    destruct (resolveTarget _ _) as [id|]; [|left; reflexivity].
    destruct (voiceController_play_state je s (msg_guild message)
                (msg_channel message) id) as [H|H]; [left; exact H|right; left].
    destruct H as (vc & sub & H). exists id, vc, sub. exact H. }
  destruct (strictEq _ "stop"); [|left; reflexivity].
  rewrite state_log_then.
  destruct (voiceController_stop_state je s (msg_guild message)
              (msg_channel message)) as [H|H]; [left; exact H|right; right; exact H].
Qed.

(** ** Invariants of message handling *)

Lemma clientKept_refl (s : State) : clientKept s s.
Proof. repeat split. Qed.

Lemma clientKept_trans (s1 s2 s3 : State) :
  clientKept s1 s2 -> clientKept s2 s3 -> clientKept s1 s3.
Proof.
  intros (A1 & A2 & A3 & A4 & A5) (B1 & B2 & B3 & B4 & B5).
  repeat split; congruence.
Qed.

Lemma playerKept_refl (s : State) : playerKept s s.
Proof. unfold playerKept. destruct (st_player s); [repeat split; auto|exact I]. Qed.

Lemma playerKept_trans (s1 s2 s3 : State) :
  playerKept s1 s2 -> playerKept s2 s3 -> playerKept s1 s3.
Proof.
  unfold playerKept.
  destruct (st_player s1) as [p1|], (st_player s2) as [p2|],
    (st_player s3) as [p3|]; try tauto.
  intros (A1 & A2 & A3) (B1 & B2 & B3). repeat split; try congruence. auto.
Qed.

Lemma onMessage_keeps (je : option JsError) (message : Message) (s : State) :
  clientKept s (state (onMessage je message s))
  /\ playerKept s (state (onMessage je message s)).
Proof.
  destruct (onMessage_state je message s) as [H|[H|H]].
  - rewrite H. split; [apply clientKept_refl|apply playerKept_refl].
  - destruct H as (id & vc & sub & _ & _ & _ & ->).
    split; [repeat split|]. unfold playerKept. cbn.
    destruct (st_player s); [repeat split; auto|exact I].
  - destruct H as (p & c0 & Hp & _ & ->).
    split; [repeat split|]. unfold playerKept. cbn. rewrite Hp.
    repeat split.
Qed.

Lemma deliver_state (je : option JsError) (message : Message) (s : State) :
  state (deliver je message s)
  = if st_listening s then state (onMessage je message s) else s.
Proof.
  unfold deliver. unfold bind at 1. unfold get.
  rewrite result_eta. destruct (st_listening s); reflexivity.
Qed.

Lemma runMessages_keeps (inputs : list (option JsError * Message)) (s : State) :
  clientKept s (runMessages inputs s) /\ playerKept s (runMessages inputs s).
Proof.
  revert s. induction inputs as [|[je message] rest IH]; intros s; cbn [runMessages].
  - split; [apply clientKept_refl|apply playerKept_refl].
  - destruct (IH (state (deliver je message s))) as [C P].
    assert (K : clientKept s (state (deliver je message s))
                /\ playerKept s (state (deliver je message s))).
    { rewrite deliver_state. destruct (st_listening s).
      - apply onMessage_keeps.
      - split; [apply clientKept_refl|apply playerKept_refl]. }
    destruct K as [C0 P0]. split.
    + exact (clientKept_trans _ _ _ C0 C).
    + exact (playerKept_trans _ _ _ P0 P).
Qed.

Lemma onMessage_wellFormed (je : option JsError) (message : Message) (s : State) :
  is_Some (st_player s) -> sessionsWellFormed s ->
  sessionsWellFormed (state (onMessage je message s)).
Proof.
  intros Hp W.
  destruct (onMessage_state je message s) as [H|[H|H]].
  - rewrite H. exact W.
  - destruct H as (id & vc & sub & Hv & Ht & Hs & ->).
    rewrite (Hs Hp). intros k c. cbn.
    destruct (decide (ch_guild vc = k)) as [<-|Ne].
    + rewrite lookup_insert_eq. intros [= <-]. cbn.
      split; [reflexivity|]. exists id, vc. repeat split; assumption.
    + rewrite lookup_insert_ne by exact Ne. apply W.
  - destruct H as (p & c0 & _ & _ & ->). intros k c. cbn.
    rewrite lookup_delete_Some. intros [_ Hk]. exact (W k c Hk).
Qed.

Lemma runMessages_wellFormed (inputs : list (option JsError * Message)) (s : State) :
  is_Some (st_player s) -> sessionsWellFormed s ->
  sessionsWellFormed (runMessages inputs s).
Proof.
  revert s. induction inputs as [|[je message] rest IH]; intros s Hp W;
    cbn [runMessages]; [exact W|].
  assert (K : is_Some (st_player (state (deliver je message s)))
              /\ sessionsWellFormed (state (deliver je message s))).
  { rewrite deliver_state. destruct (st_listening s); [|split; assumption].
    split; [|apply onMessage_wellFormed; assumption].
    destruct (onMessage_keeps je message s) as [_ P]. unfold playerKept in P.
    destruct Hp as [p Hp]. rewrite Hp in P.
    destruct (st_player (state (onMessage je message s))); [eexists; reflexivity|].
    destruct P. }
  destruct K as [Hp' W']. apply IH; assumption.
Qed.

Lemma onClientReady_started (d : Device) (s : State) :
  dev_defaultSampleRate d = 48000 ->
  state (onClientReady (Some d) s)
  = set_listening true
      (set_player
         (Some {| player_status := Playing; capture_device := dev_id d;
                  capture_started := true |}) s).
Proof.
  intros E.
  unfold onClientReady, createStream, bind, try_catch, console_log, emit.
  rewrite E. reflexivity.
Qed.

(** ** Words of a message *)

Lemma split_cons (s : string) : exists w ws, split " " s = w :: ws.
Proof.
  induction s as [|c r IH]; cbn [split]; [eexists _, _; reflexivity|].
  destruct (Ascii.eqb c " "); [eexists _, _; reflexivity|].
  destruct IH as (w & ws & ->). eexists _, _; reflexivity.
Qed.

Lemma concat_first_char (sep : string) (c : ascii) (w : string) (ws : list string) :
  String.concat sep (String c w :: ws) = String c (String.concat sep (w :: ws)).
Proof. destruct ws; reflexivity. Qed.

Lemma split_join (s : string) : String.concat " " (split " " s) = s.
Proof.
  induction s as [|c r IH]; [reflexivity|]. cbn [split].
  destruct (split_cons r) as (w & ws & E). rewrite E in *.
  destruct (Ascii.eqb_spec c " ") as [->|N].
  - change (String.concat " " ("" :: w :: ws))
      with (String " " (String.concat " " (w :: ws))).
    rewrite IH. reflexivity.
  - rewrite concat_first_char, IH. reflexivity.
Qed.

Lemma split_spaceFree_words (s : string) :
  Forall (fun w => spaceFree w = true) (split " " s).
Proof.
  induction s as [|c r IH]; cbn [split]; [repeat constructor|].
  destruct (Ascii.eqb c " ") eqn:E; [constructor; [reflexivity|exact IH]|].
  destruct (split_cons r) as (w & ws & Er). rewrite Er in *.
  inversion IH as [|? ? Hw Hws]; subst. constructor; [|exact Hws].
  cbn [spaceFree]. rewrite E, Hw. reflexivity.
Qed.

Lemma join_split (ws : list string) :
  ws <> [] -> Forall (fun w => spaceFree w = true) ws ->
  split " " (String.concat " " ws) = ws.
Proof.
  induction ws as [|w ws IH]; [congruence|]. intros _ F.
  inversion F as [|? ? Hw Hws]; subst.
  destruct ws as [|w' ws].
  - cbn [String.concat]. apply split_spaceFree. exact Hw.
  - change (String.concat " " (w :: w' :: ws))
      with (w +:+ String " " (String.concat " " (w' :: ws))).
    rewrite split_word by exact Hw. rewrite IH; [reflexivity|discriminate|exact Hws].
Qed.

(** X12.  Splitting a text at its spaces and joining the words with a
    space gives the text back; the words hold no space and there is at
    least one; and space-free words joined by spaces split into themselves. *)
Theorem split_and_join (s : string) (ws : list string) :
  String.concat " " (split " " s) = s
  /\ Forall (fun w => spaceFree w = true) (split " " s)
  /\ split " " s <> []
  /\ (ws <> [] -> Forall (fun w => spaceFree w = true) ws ->
      split " " (String.concat " " ws) = ws).
Proof.
  split; [apply split_join|]. split; [apply split_spaceFree_words|].
  split; [|apply join_split].
  destruct (split_cons s) as (w & l & ->). discriminate.
Qed.

Lemma split_and_join_witness :
  Forall (fun w => spaceFree w = true) ["<@7>"; "play"; "Music"]
  /\ split " " "<@7> play Music" = ["<@7>"; "play"; "Music"].
Proof.
  assert (F : Forall (fun w => spaceFree w = true) ["<@7>"; "play"; "Music"])
    by (repeat constructor).
  split; [exact F|].
  exact (proj2 (proj2 (proj2 (split_and_join "" ["<@7>"; "play"; "Music"])))
           ltac:(discriminate) F).
Defined.

(** ** Commands *)

Lemma split_three (user command target : string) :
  spaceFree user = true -> spaceFree command = true ->
  split " " (user +:+ " " +:+ command +:+ " " +:+ target)
  = user :: command :: split " " target.
Proof.
  intros Hu Hc.
  change (user +:+ " " +:+ command +:+ " " +:+ target)
    with (user +:+ String " " (command +:+ String " " target)).
  rewrite (split_word user) by exact Hu.
  rewrite (split_word command) by exact Hc. reflexivity.
Qed.

Lemma split_two (user rest : string) :
  spaceFree user = true ->
  split " " (user +:+ " " +:+ rest) = user :: split " " rest.
Proof.
  intros Hu. change (user +:+ " " +:+ rest) with (user +:+ String " " rest).
  apply split_word. exact Hu.
Qed.

Lemma isDigit_not_space (c : ascii) : isDigit c = true -> Ascii.eqb c " " = false.
Proof. destruct c as [[] [] [] [] [] [] [] []]; try discriminate; reflexivity. Qed.

Lemma matchDigits_spaceFree (n : nat) (s : string) :
  matchDigits n s = true -> spaceFree s = true.
Proof.
  revert s. induction n as [|n IH]; intros [|c r]; cbn [matchDigits spaceFree];
    try discriminate; [reflexivity|].
  intros H. apply andb_true_iff in H. destruct H as [Hc Hr].
  rewrite (isDigit_not_space c Hc), (IH r Hr). reflexivity.
Qed.

Lemma isChannelId_word (target : string) :
  isChannelId target = true -> spaceFree target = true /\ target <> "".
Proof.
  intros H. split; [exact (matchDigits_spaceFree _ _ H)|].
  intros ->. discriminate H.
Qed.

(** X4.  A [play] whose target is an eighteen-digit id that the client
    cache does not hold, or holds as a channel that is not a voice
    channel, is answered with the invalid-channel message naming the id;
    nothing is joined and the state is unchanged. *)
Theorem play_unknown_id_is_invalid
    (je : option JsError) (message : Message) (s : State)
    (mentionedUsername user target : string) :
  msg_mentions message !! st_clientId s = Some mentionedUsername ->
  spaceFree user = true ->
  msg_content message = user +:+ " play " +:+ target ->
  isChannelId target = true ->
  match st_channels s !! target with
  | Some vc => ch_type vc <> GuildVoice
  | None => True
  end ->
  onMessage je message s
  = mkResult (Normal tt) s
      [ConsoleLog ("Connecting to voice channel (" +:+ target +:+ ") ...");
       ConsoleError ("The voice channel (" +:+ target
                     +:+ ") is invalid or does not exist ...");
       Send (msg_channel message) (present (InvalidTarget target))].
Proof.
  intros Hm Hu Hc Hid Hv.
  destruct (isChannelId_word target Hid) as [Ht Hne].
  rewrite (onMessage_play je message s mentionedUsername user target Hm Hu Ht Hne Hc).
  unfold bind at 1. unfold console_log, emit. rewrite play_branch_run.
  unfold resolveTarget. rewrite Hid.
  rewrite (voiceController_play_invalid je s _ _ target Hv). reflexivity.
Qed.

Lemma play_unknown_id_is_invalid_witness :
  isChannelId "333333333333333333" = true
  /\ Sample.playTextChannelId
     = mkResult (Normal tt) Sample.ready
         [ConsoleLog "Connecting to voice channel (333333333333333333) ...";
          ConsoleError
            "The voice channel (333333333333333333) is invalid or does not exist ...";
          Send "555555555555555555" (present (InvalidTarget "333333333333333333"))].
Proof.
  split; [reflexivity|].
  refine (play_unknown_id_is_invalid None
            (Sample.mention None "<@700000000000000007> play 333333333333333333")
            Sample.ready "AudioBot" "<@700000000000000007>" "333333333333333333"
            _ _ _ _ _).
  - vm_compute. reflexivity.
  - reflexivity.
  - reflexivity.
  - reflexivity.
  - vm_compute. discriminate.
Defined.

Lemma onMessage_play_resolved (je : option JsError) (message : Message) (s : State)
    (mentionedUsername user target id : string) :
  msg_mentions message !! st_clientId s = Some mentionedUsername ->
  spaceFree user = true -> spaceFree target = true -> target <> "" ->
  msg_content message = user +:+ " play " +:+ target ->
  resolveTarget (msg_guild message) target = Some id ->
  onMessage je message s
  = match voiceController je "play" (msg_guild message) (msg_channel message)
            (Some id) s with
    | mkResult c s' done =>
        mkResult c s'
          (ConsoleLog ("Connecting to voice channel (" +:+ target +:+ ") ...") :: done)
    end.
Proof.
  intros Hm Hu Ht Hne Hc Hr.
  rewrite (onMessage_play je message s mentionedUsername user target Hm Hu Ht Hne Hc).
  unfold bind at 1. unfold console_log, emit. rewrite play_branch_run, Hr.
  reflexivity.
Qed.

(** X5.  When [joinVoiceChannel] throws during a [play] whose target stands
    for a cached voice channel, the error is caught: the listener completes,
    logs the message of the error, answers with the cannot-connect message
    naming the id, does not subscribe the player, and the state is
    unchanged. *)
Theorem play_join_error_is_reported
    (e : JsError) (message : Message) (s : State)
    (mentionedUsername user target id : string) (vc : Channel) :
  msg_mentions message !! st_clientId s = Some mentionedUsername ->
  spaceFree user = true -> spaceFree target = true -> target <> "" ->
  msg_content message = user +:+ " play " +:+ target ->
  resolveTarget (msg_guild message) target = Some id ->
  st_channels s !! id = Some vc ->
  ch_type vc = GuildVoice ->
  onMessage (Some e) message s
  = mkResult (Normal tt) s
      [ConsoleLog ("Connecting to voice channel (" +:+ target +:+ ") ...");
       JoinVoiceChannel (ch_id vc) (ch_guild vc);
       ConsoleError (dropFinalEscape (message_of e) +:+ " ...");
       Send (msg_channel message) (present (ConnectionFailed id))].
Proof.
  intros Hm Hu Ht Hne Hc Hr Hv Hty.
  rewrite (onMessage_play_resolved (Some e) message s mentionedUsername user
             target id Hm Hu Ht Hne Hc Hr).
  rewrite (voiceController_play_failed s _ _ id vc e Hv Hty). reflexivity.
Qed.

Lemma play_join_error_is_reported_witness :
  resolveTarget (Sample.home None) "Music" = Some "111111111111111111"
  /\ Sample.playJoinThrows
     = mkResult (Normal tt) Sample.ready
         [ConsoleLog "Connecting to voice channel (Music) ...";
          JoinVoiceChannel "111111111111111111" "900000000000000001";
          ConsoleError "Adapter unavailable ...";
          Send "555555555555555555" (present (ConnectionFailed "111111111111111111"))].
Proof.
  split; [reflexivity|].
  refine (play_join_error_is_reported (Error "Adapter unavailable")
            (Sample.mention None "<@700000000000000007> play Music")
            Sample.ready "AudioBot" "<@700000000000000007>" "Music"
            "111111111111111111" Sample.music _ _ _ _ _ _ _ _).
  - vm_compute. reflexivity.
  - reflexivity.
  - reflexivity.
  - discriminate.
  - reflexivity.
  - reflexivity.
  - vm_compute. reflexivity.
  - reflexivity.
Defined.

(** X6.  [play] files the connection under the guild of the target channel,
    not under the guild of the message.  When the two differ, the guild the
    command came from still has no session of its own: its table entry is
    as before, and a [stop] sent there next is answered with the
    cannot-disconnect message while the new connection stays. *)
Theorem play_joins_the_guild_of_the_channel
    (s : State) (guild guild' : Guild) (channel channel' id : Snowflake)
    (vc : Channel) (je' : option JsError) :
  st_channels s !! id = Some vc ->
  ch_type vc = GuildVoice ->
  ch_guild vc <> guild_id guild ->
  is_Some (st_player s) ->
  st_connections s !! guild_id guild = None ->
  guild_id guild' = guild_id guild ->
  let r := voiceController None "play" guild channel (Some id) s in
  reports r channel (Connected id)
  /\ st_connections (state r) !! ch_guild vc
     = Some {| vc_channel := ch_id vc; vc_subscribed := true |}
  /\ st_connections (state r) !! guild_id guild = None
  /\ voiceController je' "stop" guild' channel' None (state r)
     = mkResult (Normal tt) (state r)
         [ConsoleLog "Not connected to any voice channel ...";
          Send channel' (present NotConnected)].
Proof.
  intros Hv Hty Hne [p Hp] Hc Hg. cbv zeta.
  rewrite (voiceController_play_joined s guild channel id vc p Hv Hty Hp).
  cbn [state effects].
  assert (L : (<[ch_guild vc := {| vc_channel := ch_id vc; vc_subscribed := true |}]>
                 (st_connections s)) !! guild_id guild = None)
    by (rewrite lookup_insert_ne by exact Hne; exact Hc).
  split; [unfold reports; cbn; do 3 right; left; reflexivity|].
  split; [cbn; apply lookup_insert_eq|].
  split; [exact L|].
  apply voiceController_stop_idle. rewrite Hg. exact L.
Qed.

Lemma play_joins_the_guild_of_the_channel_witness :
  ch_guild Sample.stage <> guild_id (Sample.home None)
  /\ st_connections
       (state (voiceController None "play" (Sample.home None) "555555555555555555"
                 (Some "444444444444444444") Sample.ready))
     !! guild_id (Sample.home None) = None.
Proof.
  assert (N : ch_guild Sample.stage <> guild_id (Sample.home None))
    by (vm_compute; discriminate).
  split; [exact N|].
  refine (proj1 (proj2 (proj2
    (play_joins_the_guild_of_the_channel Sample.ready (Sample.home None)
       (Sample.home None) "555555555555555555" "555555555555555555"
       "444444444444444444" Sample.stage None _ _ N _ _ _)))).
  - vm_compute. reflexivity.
  - reflexivity.
  - vm_compute. eexists; reflexivity.
  - vm_compute. reflexivity.
  - reflexivity.
Defined.

(** X7.  Playing one voice channel of a guild and then another of the same
    guild leaves the state that playing the second alone leaves: the guild
    has one connection, on the channel played last.  Playing the same
    channel twice is playing it once. *)
Theorem last_play_wins
    (s : State) (g1 g2 : Guild) (c1 c2 a b : Snowflake) (va vb : Channel) :
  st_channels s !! a = Some va -> ch_type va = GuildVoice ->
  st_channels s !! b = Some vb -> ch_type vb = GuildVoice ->
  ch_guild va = ch_guild vb ->
  is_Some (st_player s) ->
  state (voiceController None "play" g2 c2 (Some b)
           (state (voiceController None "play" g1 c1 (Some a) s)))
  = state (voiceController None "play" g2 c2 (Some b) s).
Proof.
  intros Ha Hta Hb Htb Hg [p Hp].
  rewrite (voiceController_play_joined s g1 c1 a va p Ha Hta Hp). cbn [state].
  set (s1 := set_connections _ s).
  assert (Hb1 : st_channels s1 !! b = Some vb) by exact Hb.
  assert (Hp1 : st_player s1 = Some p) by exact Hp.
  rewrite (voiceController_play_joined s1 g2 c2 b vb p Hb1 Htb Hp1).
  rewrite (voiceController_play_joined s g2 c2 b vb p Hb Htb Hp).
  subst s1. cbn. rewrite Hg, insert_insert_eq. reflexivity.
Qed.

Lemma last_play_wins_witness :
  ch_guild Sample.music = ch_guild Sample.lounge
  /\ state (voiceController None "play" (Sample.home None) "555555555555555555"
              (Some "222222222222222222")
              (state (voiceController None "play" (Sample.home None)
                        "555555555555555555" (Some "111111111111111111")
                        Sample.ready)))
     = state (voiceController None "play" (Sample.home None) "555555555555555555"
                (Some "222222222222222222") Sample.ready).
Proof.
  split; [reflexivity|].
  refine (last_play_wins Sample.ready (Sample.home None) (Sample.home None)
            "555555555555555555" "555555555555555555"
            "111111111111111111" "222222222222222222"
            Sample.music Sample.lounge _ _ _ _ _ _).
  - vm_compute. reflexivity.
  - reflexivity.
  - vm_compute. reflexivity.
  - reflexivity.
  - reflexivity.
  - vm_compute. eexists; reflexivity.
Defined.

(** X8.  A [play] in a guild followed by a [stop] there puts the connection
    table back as it was when the guild had no session before, and the
    client is as before; what does not come back is the player, which is
    left stopped. *)
Theorem play_then_stop_restores_the_table
    (s : State) (g1 g2 : Guild) (c1 c2 id : Snowflake) (vc : Channel)
    (p : Pipeline) (je : option JsError) :
  st_channels s !! id = Some vc -> ch_type vc = GuildVoice ->
  ch_guild vc = guild_id g1 -> guild_id g2 = guild_id g1 ->
  st_player s = Some p ->
  st_connections s !! guild_id g1 = None ->
  state (voiceController je "stop" g2 c2 None
           (state (voiceController None "play" g1 c1 (Some id) s)))
  = set_player (Some (stopped p)) s.
Proof.
  intros Hv Hty Hg Hg2 Hp Hc.
  rewrite (voiceController_play_joined s g1 c1 id vc p Hv Hty Hp). cbn [state].
  set (s1 := set_connections _ s).
  assert (Hc1 : st_connections s1 !! guild_id g2
                = Some {| vc_channel := ch_id vc; vc_subscribed := true |}).
  { subst s1. cbn. rewrite Hg, Hg2. apply lookup_insert_eq. }
  assert (Hp1 : st_player s1 = Some p) by exact Hp.
  rewrite (voiceController_stop_connected je s1 g2 c2 _ p Hc1 Hp1). cbn [state].
  subst s1. cbn. rewrite Hg, Hg2, delete_insert_eq, (delete_id _ _ Hc).
  destruct s; reflexivity.
Qed.

Lemma play_then_stop_restores_the_table_witness :
  st_connections Sample.ready !! guild_id (Sample.home None) = None
  /\ st_connections
       (state (voiceController None "stop" (Sample.home None) "555555555555555555" None
                 (state (voiceController None "play" (Sample.home None)
                           "555555555555555555" (Some "111111111111111111")
                           Sample.ready))))
     = st_connections Sample.ready.
Proof.
  assert (H : st_connections Sample.ready !! guild_id (Sample.home None) = None)
    by (vm_compute; reflexivity).
  split; [exact H|].
  refine (f_equal st_connections
    (play_then_stop_restores_the_table Sample.ready (Sample.home None)
       (Sample.home None) "555555555555555555" "555555555555555555"
       "111111111111111111" Sample.music
       {| player_status := Playing; capture_device := 3; capture_started := true |}
       None _ _ _ _ _ H)).
  - vm_compute. reflexivity.
  - reflexivity.
  - reflexivity.
  - reflexivity.
  - vm_compute. reflexivity.
Defined.

(** X9.  After a [stop] that found a session, a later [play] connects and
    subscribes the shared player as usual, but the player it subscribes is
    the stopped one: no command starts it again. *)
Theorem play_after_stop_subscribes_a_stopped_player
    (s : State) (g1 g2 : Guild) (c1 c2 id : Snowflake) (vc : Channel)
    (c0 : VoiceConnection) (p : Pipeline) (je : option JsError) :
  st_connections s !! guild_id g1 = Some c0 ->
  st_player s = Some p ->
  st_channels s !! id = Some vc -> ch_type vc = GuildVoice ->
  let r1 := voiceController je "stop" g1 c1 None s in
  let r2 := voiceController None "play" g2 c2 (Some id) (state r1) in
  completion r2 = Normal tt
  /\ reports r2 c2 (Connected id)
  /\ st_connections (state r2) !! ch_guild vc
     = Some {| vc_channel := ch_id vc; vc_subscribed := true |}
  /\ st_player (state r2) = Some (stopped p)
  /\ player_status (stopped p) = Idle.
Proof.
  intros Hc Hp Hv Hty. cbv zeta.
  rewrite (voiceController_stop_connected je s g1 c1 c0 p Hc Hp). cbn [state].
  set (s1 := set_connections _ (set_player _ s)).
  assert (Hv1 : st_channels s1 !! id = Some vc) by exact Hv.
  assert (Hp1 : st_player s1 = Some (stopped p)) by reflexivity.
  rewrite (voiceController_play_joined s1 g2 c2 id vc _ Hv1 Hty Hp1).
  cbn [state completion effects]. repeat split.
  - unfold reports. cbn. do 3 right. left. reflexivity.
  - cbn. apply lookup_insert_eq.
Qed.

Lemma play_after_stop_subscribes_a_stopped_player_witness :
  st_connections Sample.streaming !! guild_id (Sample.home None)
  = Some {| vc_channel := "111111111111111111"; vc_subscribed := true |}
  /\ (player_status <$>
        st_player
          (state (voiceController None "play" (Sample.home None) "555555555555555555"
                    (Some "222222222222222222")
                    (state (voiceController None "stop" (Sample.home None)
                              "555555555555555555" None Sample.streaming)))))
     = Some Idle.
Proof.
  assert (H : st_connections Sample.streaming !! guild_id (Sample.home None)
              = Some {| vc_channel := "111111111111111111"; vc_subscribed := true |})
    by (vm_compute; reflexivity).
  split; [exact H|].
  refine (f_equal (fmap player_status)
    (proj1 (proj2 (proj2 (proj2
      (play_after_stop_subscribes_a_stopped_player Sample.streaming
         (Sample.home None) (Sample.home None)
         "555555555555555555" "555555555555555555" "222222222222222222"
         Sample.lounge _
         {| player_status := Playing; capture_device := 3; capture_started := true |}
         None H _ _ _)))))).
  - vm_compute. reflexivity.
  - vm_compute. reflexivity.
  - reflexivity.
Defined.

(** X10.  Whatever messages arrive, in whatever order and with whatever
    join errors, the client's id, caches and listener flags stay as they
    are, the player object stays the same with its capture as it was, and a
    player that is stopped is never playing again afterwards. *)
Theorem commands_never_restart_the_player
    (inputs : list (option JsError * Message)) (s : State) :
  clientKept s (runMessages inputs s) /\ playerKept s (runMessages inputs s).
Proof. apply runMessages_keeps. Qed.

(** X11.  From a start on a 48000 Hz device, after any series of messages:
    the player exists and captures from that device, the listener is
    attached, and every connection of the table has the shared player
    subscribed, is on a voice channel of the client cache and is filed
    under that channel's guild. *)
Theorem reachable_states_are_well_formed
    (clientId : Snowflake) (channels : gmap string Channel) (guilds : list Guild)
    (d : Device) (inputs : list (option JsError * Message)) :
  dev_defaultSampleRate d = 48000 ->
  let s := runMessages inputs
             (state (onClientReady (Some d) (initialState clientId channels guilds))) in
  (exists p, st_player s = Some p /\ capture_device p = dev_id d
             /\ capture_started p = true)
  /\ st_listening s = true
  /\ st_channels s = channels
  /\ sessionsWellFormed s.
Proof.
  intros E. cbv zeta. rewrite (onClientReady_started d _ E).
  set (s0 := set_listening true _).
  destruct (runMessages_keeps inputs s0) as [(_ & C2 & _ & C4 & _) P].
  split; [|split; [exact C4|split; [exact C2|]]].
  - unfold playerKept in P. subst s0. cbn in P.
    destruct (st_player (runMessages inputs _)) as [p|]; [|destruct P].
    destruct P as (P1 & P2 & _). exists p. repeat split; assumption.
  - apply runMessages_wellFormed.
    + subst s0. cbn. eexists; reflexivity.
    + intros k c H. subst s0. cbn in H. rewrite lookup_empty in H. discriminate H.
Qed.

Lemma reachable_states_are_well_formed_witness :
  dev_defaultSampleRate Sample.loopback = 48000
  /\ sessionsWellFormed
       (runMessages
          [(None, Sample.mention None "<@700000000000000007> play Music");
           (None, Sample.mention None "<@700000000000000007> stop")]
          (state (onClientReady (Some Sample.loopback)
                    (initialState "700000000000000007" ∅ []))))
.
Proof.
  assert (H : dev_defaultSampleRate Sample.loopback = 48000) by reflexivity.
  split; [exact H|].
  exact (proj2 (proj2 (proj2
    (reachable_states_are_well_formed "700000000000000007" ∅ [] Sample.loopback
       [(None, Sample.mention None "<@700000000000000007> play Music");
        (None, Sample.mention None "<@700000000000000007> stop")] H)))).
Defined.

(** ** Replies *)

Lemma voiceController_play_replies je s guild channel id :
  exists e,
    replies (effects (voiceController je "play" guild channel (Some id) s))
    = [(channel, e)].
Proof.
  destruct (st_channels s !! id) as [vc|] eqn:Hv.
  2:{ rewrite voiceController_play_invalid by (rewrite Hv; exact I).
      eexists; reflexivity. }
  assert (D : ch_type vc = GuildVoice \/ ch_type vc <> GuildVoice)
    by (destruct (ch_type vc); (left; reflexivity) || (right; discriminate)).
  destruct D as [Ht|Ht].
  2:{ rewrite voiceController_play_invalid by (rewrite Hv; exact Ht).
      eexists; reflexivity. }
  destruct je as [e|].
  { rewrite (voiceController_play_failed s guild channel id vc e Hv Ht).
    eexists; reflexivity. }
  destruct (st_player s) as [p|] eqn:Hp.
  - rewrite (voiceController_play_joined s guild channel id vc p Hv Ht Hp).
    eexists; reflexivity.
  - controller. rewrite Hv. cbn. rewrite Ht. cbn. rewrite Hp.
    eexists; reflexivity.
Qed.

Lemma voiceController_stop_replies je s guild channel :
  replies (effects (voiceController je "stop" guild channel None s)) = []
  \/ exists e,
       replies (effects (voiceController je "stop" guild channel None s))
       = [(channel, e)].
Proof.
  destruct (st_connections s !! guild_id guild) as [c0|] eqn:Hc.
  2:{ right. rewrite voiceController_stop_idle by exact Hc. eexists; reflexivity. }
  destruct (st_player s) as [p|] eqn:Hp.
  - rewrite (voiceController_stop_connected je s guild channel c0 p Hc Hp).
    destruct (guild_me_voice guild) as [[id|]|];
      [right; eexists; reflexivity|left; reflexivity|left; reflexivity].
  - left. controller. rewrite Hc. cbn. rewrite Hp. reflexivity.
Qed.

(** X3.  A message gets at most one reply, and a reply goes to the channel
    the message came from. *)
Theorem at_most_one_reply_on_the_message_channel
    (je : option JsError) (message : Message) (s : State) :
  replies (effects (onMessage je message s)) = []
  \/ exists e,
       replies (effects (onMessage je message s)) = [(msg_channel message, e)].
Proof.
  rewrite onMessage_dispatch.
  destruct (msg_mentions message !! st_clientId s) as [u|]; [|left; reflexivity].
  cbv zeta.
  destruct (negb _ || _); [right; eexists; reflexivity|].
  destruct (strictEq _ "list"); [right; eexists; reflexivity|].
  destruct (strictEq _ "play").
  { destruct (truthy _); [|left; reflexivity].
    rewrite effects_log_then, play_branch_run.
    destruct (resolveTarget _ _) as [id|]; [|left; reflexivity].
    right. exact (voiceController_play_replies je s _ _ id). }
  destruct (strictEq _ "stop"); [|left; reflexivity].
  rewrite effects_log_then. apply voiceController_stop_replies.
Qed.

(** X1.  A message that does not mention the bot is ignored.  Otherwise the
    second word of the text selects at most one branch: help when it is
    missing, empty or [help]; the channel list for [list]; the controller
    for [play] with a non-empty third word and for [stop]; a [play] without
    target and any other word do nothing and send nothing. *)
Theorem one_branch_per_message
    (je : option JsError) (message : Message) (s : State) :
  onMessage je message s
  = match msg_mentions message !! st_clientId s with
    | None => mkResult (Normal tt) s []
    | Some mentionedUsername =>
        let parts := split " " (msg_content message) in
        let command := parts !! 1%nat in
        let channelId := parts !! 2%nat in
        if negb (truthy command) || strictEq command "help" then
          mkResult (Normal tt) s
            [ConsoleLog "Displaying command help menu ...";
             Send (msg_channel message)
               (messageEmbedTemplate "Command Help Menu" (helpMenu mentionedUsername))]
        else if strictEq command "list" then
          mkResult (Normal tt) s
            [ConsoleLog "Displaying voice channel list ...";
             Send (msg_channel message)
               (messageEmbedTemplate "Voice Channels List"
                  (voiceChannelsList (default "undefined" (parts !! 0%nat))
                     (msg_guild message)))]
        else if strictEq command "play" then
          if truthy channelId then
            (console_log ("Connecting to voice channel (" +:+ show channelId +:+ ") ...") ;;
             id <- joinChannelId (msg_guild message) (show channelId) ;;
             voiceController je "play" (msg_guild message) (msg_channel message) (Some id)) s
          else mkResult (Normal tt) s []
        else if strictEq command "stop" then
          (console_log "Disconnecting from voice channel ..." ;;
           voiceController je "stop" (msg_guild message) (msg_channel message) None) s
        else mkResult (Normal tt) s []
    end.
Proof. apply onMessage_dispatch. Qed.

(** X2.  What a message can do to the state is one of three things:
    nothing; put the connection of the target channel's guild on the target
    channel, with the player subscribed whenever the player exists; or
    stop the player and remove the connection of the message's guild. *)
Theorem message_changes_the_state_in_three_ways
    (je : option JsError) (message : Message) (s : State) :
  let s' := state (onMessage je message s) in
  s' = s
  \/ (exists id vc sub,
        st_channels s !! id = Some vc /\ ch_type vc = GuildVoice
        /\ (is_Some (st_player s) -> sub = true)
        /\ s' = set_connections
                  (<[ch_guild vc := {| vc_channel := ch_id vc; vc_subscribed := sub |}]>
                     (st_connections s)) s)
  \/ (exists p c0,
        st_player s = Some p
        /\ st_connections s !! guild_id (msg_guild message) = Some c0
        /\ s' = set_connections
                  (delete (guild_id (msg_guild message)) (st_connections s))
                  (set_player (Some (stopped p)) s)).
Proof. apply onMessage_state. Qed.

Lemma message_changes_the_state_in_three_ways_witness :
  is_Some (st_player Sample.ready)
  /\ (state Sample.playGeneral = Sample.ready
      \/ (exists id vc sub,
            st_channels Sample.ready !! id = Some vc /\ ch_type vc = GuildVoice
            /\ (is_Some (st_player Sample.ready) -> sub = true)
            /\ state Sample.playGeneral
               = set_connections
                   (<[ch_guild vc := {| vc_channel := ch_id vc; vc_subscribed := sub |}]>
                      (st_connections Sample.ready)) Sample.ready)
      \/ (exists p c0,
            st_player Sample.ready = Some p
            /\ st_connections Sample.ready !! guild_id (Sample.home None) = Some c0
            /\ state Sample.playGeneral
               = set_connections
                   (delete (guild_id (Sample.home None)) (st_connections Sample.ready))
                   (set_player (Some (stopped p)) Sample.ready))).
Proof.
  split; [vm_compute; eexists; reflexivity|].
  exact (message_changes_the_state_in_three_ways None
           (Sample.mention None "<@700000000000000007> play general") Sample.ready).
Defined.

(** ** Edges of the command text *)

Lemma onMessage_by_words (je : option JsError) (m1 m2 : Message) (s : State) :
  msg_guild m1 = msg_guild m2 -> msg_channel m1 = msg_channel m2 ->
  msg_mentions m1 = msg_mentions m2 ->
  split " " (msg_content m1) !! 0%nat = split " " (msg_content m2) !! 0%nat ->
  split " " (msg_content m1) !! 1%nat = split " " (msg_content m2) !! 1%nat ->
  split " " (msg_content m1) !! 2%nat = split " " (msg_content m2) !! 2%nat ->
  onMessage je m1 s = onMessage je m2 s.
Proof.
  intros Hg Hc Hm H0 H1 H2. rewrite !onMessage_dispatch. cbv zeta.
  rewrite Hg, Hc, Hm, H0, H1, H2. reflexivity.
Qed.

(** X13.  Only the first three words of a message are read: whatever
    follows the target of a [play] changes nothing.  A channel whose name
    has a space in it is therefore never the target; its first word is. *)
Theorem words_after_the_target_are_ignored
    (je : option JsError) (message : Message) (s : State)
    (user target rest : string) :
  spaceFree user = true -> spaceFree target = true ->
  onMessage je
    (withContent message (user +:+ " play " +:+ target +:+ " " +:+ rest)) s
  = onMessage je (withContent message (user +:+ " play " +:+ target)) s.
Proof.
  intros Hu Ht.
  assert (S1 : split " " (user +:+ " play " +:+ target +:+ " " +:+ rest)
               = user :: "play" :: target :: split " " rest).
  { change (user +:+ " play " +:+ target +:+ " " +:+ rest)
      with (user +:+ " " +:+ "play" +:+ " " +:+ (target +:+ " " +:+ rest)).
    rewrite split_three by (exact Hu || reflexivity).
    rewrite split_two by exact Ht. reflexivity. }
  assert (S2 : split " " (user +:+ " play " +:+ target) = [user; "play"; target]).
  { change (user +:+ " play " +:+ target)
      with (user +:+ " " +:+ "play" +:+ " " +:+ target).
    rewrite split_three by (exact Hu || reflexivity).
    rewrite split_spaceFree by exact Ht. reflexivity. }
  apply onMessage_by_words; try reflexivity; cbn [withContent msg_content];
    rewrite S1, S2; reflexivity.
Qed.

Lemma words_after_the_target_are_ignored_witness :
  spaceFree "Music" = true
  /\ onMessage None
       (withContent (Sample.mention None "")
          ("<@700000000000000007>" +:+ " play " +:+ "Music" +:+ " " +:+ "Room 2"))
       Sample.ready
     = onMessage None
         (withContent (Sample.mention None "")
            ("<@700000000000000007>" +:+ " play " +:+ "Music"))
         Sample.ready.
Proof.
  split; [reflexivity|].
  exact (words_after_the_target_are_ignored None (Sample.mention None "")
           Sample.ready "<@700000000000000007>" "Music" "Room 2" eq_refl eq_refl).
Defined.

(** X17.  A mention with no second word, or with an empty one, as when two
    spaces follow the mention, gets the help menu, whatever comes after;
    the state is unchanged. *)
Theorem empty_second_word_shows_help
    (je : option JsError) (message : Message) (s : State)
    (mentionedUsername user rest : string) :
  msg_mentions message !! st_clientId s = Some mentionedUsername ->
  spaceFree user = true ->
  msg_content message = user \/ msg_content message = user +:+ "  " +:+ rest ->
  onMessage je message s
  = mkResult (Normal tt) s
      [ConsoleLog "Displaying command help menu ...";
       Send (msg_channel message)
         (messageEmbedTemplate "Command Help Menu" (helpMenu mentionedUsername))].
Proof.
  intros Hm Hu Hc. rewrite onMessage_dispatch, Hm. cbv zeta.
  destruct Hc as [-> | ->].
  - rewrite split_spaceFree by exact Hu. reflexivity.
  - change (user +:+ "  " +:+ rest) with (user +:+ " " +:+ (String " " rest)).
    rewrite split_two by exact Hu. reflexivity.
Qed.

Lemma empty_second_word_shows_help_witness :
  spaceFree "<@700000000000000007>" = true
  /\ completion
       (onMessage None (Sample.mention None "<@700000000000000007>  play Music")
          Sample.ready) = Normal tt
  /\ st_connections
       (state (onMessage None (Sample.mention None "<@700000000000000007>  play Music")
                 Sample.ready)) = ∅.
Proof.
  split; [reflexivity|].
  assert (Hm : msg_mentions (Sample.mention None "<@700000000000000007>  play Music")
               !! st_clientId Sample.ready = Some "AudioBot")
    by (vm_compute; reflexivity).
  rewrite (empty_second_word_shows_help None
             (Sample.mention None "<@700000000000000007>  play Music")
             Sample.ready "AudioBot" "<@700000000000000007>" "play Music"
             Hm eq_refl (or_intror eq_refl)).
  split; [reflexivity|vm_compute; reflexivity].
Defined.

(** X18.  A [play] with no target, or with an empty one, and a second word
    that is none of [help], [list], [play], [stop] are passed over in
    silence: nothing is logged, nothing is sent, nothing changes. *)
Theorem other_commands_are_silent
    (je : option JsError) (message : Message) (s : State) (user : string) :
  spaceFree user = true ->
  (msg_content message = user +:+ " play"
   \/ msg_content message = user +:+ " play ")
  \/ (exists command tail,
        spaceFree command = true
        /\ command <> "" /\ command <> "help" /\ command <> "list"
        /\ command <> "play" /\ command <> "stop"
        /\ (msg_content message = user +:+ " " +:+ command
            \/ msg_content message = user +:+ " " +:+ command +:+ " " +:+ tail)) ->
  onMessage je message s = mkResult (Normal tt) s [].
Proof.
  intros Hu H. rewrite onMessage_dispatch.
  destruct (msg_mentions message !! st_clientId s) as [u|]; [|reflexivity].
  cbv zeta.
  destruct H as [[E|E]|(command & tail & Hc & N0 & N1 & N2 & N3 & N4 & E)].
  - rewrite E. change (user +:+ " play") with (user +:+ " " +:+ "play").
    rewrite split_two by exact Hu. reflexivity.
  - rewrite E. change (user +:+ " play ") with (user +:+ " " +:+ "play" +:+ " " +:+ "").
    rewrite split_three by (exact Hu || reflexivity). reflexivity.
  - assert (W : exists ws, split " " (msg_content message) = user :: command :: ws).
    { destruct E as [E|E]; rewrite E.
      - rewrite split_two by exact Hu. rewrite split_spaceFree by exact Hc.
        eexists; reflexivity.
      - rewrite split_three by assumption. eexists; reflexivity. }
    destruct W as [ws ->]. cbn [lookup list_lookup].
    rewrite (strictEq_false command "help" N1), (strictEq_false command "list" N2),
      (strictEq_false command "play" N3), (strictEq_false command "stop" N4).
    cbn [truthy]. apply String.eqb_neq in N0. rewrite N0. reflexivity.
Qed.

Lemma other_commands_are_silent_witness :
  spaceFree "join" = true
  /\ onMessage None (Sample.mention None "<@700000000000000007> join 111111111111111111")
       Sample.ready
     = mkResult (Normal tt) Sample.ready [].
Proof.
  split; [reflexivity|].
  refine (other_commands_are_silent None
            (Sample.mention None "<@700000000000000007> join 111111111111111111")
            Sample.ready "<@700000000000000007>" eq_refl _).
  right. exists "join", "111111111111111111".
  repeat split; try discriminate. right. reflexivity.
Defined.

(** ** Lookups by name *)

Lemma find_first {A} (f : A -> bool) (l : list A) :
  match List.find f l with
  | Some x =>
      f x = true
      /\ exists before after,
           l = (before ++ x :: after)%list
           /\ forall y, In y before -> f y = false
  | None => forall y, In y l -> f y = false
  end.
Proof.
  induction l as [|a l IH]; cbn [List.find]; [intros y []|].
  destruct (f a) eqn:Fa.
  - split; [exact Fa|]. exists [], l. split; [reflexivity|intros y []].
  - destruct (List.find f l) as [x|].
    + destruct IH as (Fx & before & after & -> & Hb). split; [exact Fx|].
      exists (a :: before), after. split; [reflexivity|].
      intros y [<-|Hy]; [exact Fa|exact (Hb y Hy)].
    + intros y [<-|Hy]; [exact Fa|exact (IH y Hy)].
Qed.

(** X14.  Every voice channel of the guild is found by its own name: the
    lookup returns a voice channel of that exact name, namely the first
    such in cache order, so the channel itself when no other voice channel
    shares its name.  When the name has no space in it, is not empty and
    is not eighteen digits, a [play] message with that name hands the id
    of the channel found to the controller. *)
Theorem voice_channel_is_found_by_its_name (guild : Guild) (c : Channel) :
  In c (guild_channels guild) -> ch_type c = GuildVoice ->
  exists found before after,
    getVoiceChannelByName guild (ch_name c) = Some found
    /\ ch_name found = ch_name c /\ ch_type found = GuildVoice
    /\ guild_channels guild = (before ++ found :: after)%list
    /\ (forall x, In x before -> ch_type x = GuildVoice -> ch_name x <> ch_name c)
    /\ ((forall x, In x (guild_channels guild) -> ch_type x = GuildVoice ->
                   ch_name x = ch_name c -> x = c) -> found = c)
    /\ (forall je message s mentionedUsername user,
          msg_guild message = guild ->
          msg_mentions message !! st_clientId s = Some mentionedUsername ->
          spaceFree user = true ->
          spaceFree (ch_name c) = true -> ch_name c <> EmptyString ->
          isChannelId (ch_name c) = false ->
          msg_content message = user +:+ " play " +:+ ch_name c ->
          onMessage je message s
          = match voiceController je "play" guild (msg_channel message)
                    (Some (ch_id found)) s with
            | mkResult cpl s' done =>
                mkResult cpl s'
                  (ConsoleLog ("Connecting to voice channel (" +:+ ch_name c +:+ ") ...")
                   :: done)
            end).
Proof.
  intros Hin Hty.
  pose proof (find_first
    (fun channel => ChannelType_eqb (ch_type channel) GuildVoice
                    && String.eqb (ch_name channel) (ch_name c))
    (guild_channels guild)) as F.
  destruct (getVoiceChannelByName guild (ch_name c)) as [found|] eqn:G;
    unfold getVoiceChannelByName in G; rewrite G in F.
  - destruct F as (Ff & before & after & E & Hb).
    apply andb_true_iff in Ff. destruct Ff as [Ft Fn].
    apply String.eqb_eq in Fn.
    assert (Hft : ch_type found = GuildVoice)
      by (destruct (ch_type found); try discriminate Ft; reflexivity).
    exists found, before, after. repeat split; try assumption.
    + intros x Hx Hxt Hxn. specialize (Hb x Hx). cbn in Hb.
      rewrite Hxt, Hxn, String.eqb_refl in Hb. discriminate Hb.
    + intros U. apply U; try assumption. rewrite E. apply in_or_app.
      right. left. reflexivity.
    + intros je message s mentionedUsername user <- Hm Hu Hs Hne Hid Hc.
      apply (onMessage_play_resolved je message s mentionedUsername user
               (ch_name c) (ch_id found) Hm Hu Hs Hne Hc).
      unfold resolveTarget, getVoiceChannelByName. rewrite Hid, G. reflexivity.
  - specialize (F c Hin). cbn in F. rewrite Hty, String.eqb_refl in F.
    discriminate F.
Qed.

Lemma voice_channel_is_found_by_its_name_witness :
  In Sample.lounge (guild_channels (Sample.home None))
  /\ exists found,
       getVoiceChannelByName (Sample.home None) "Lounge" = Some found
       /\ ch_name found = "Lounge".
Proof.
  assert (H : In Sample.lounge (guild_channels (Sample.home None)))
    by (right; right; left; reflexivity).
  split; [exact H|].
  destruct (voice_channel_is_found_by_its_name (Sample.home None) Sample.lounge
              H eq_refl) as (found & _ & _ & G & N & _).
  exists found. split; [exact G|exact N].
Defined.

(** X16.  The device is looked up by the name chosen at the prompt and the
    first device of that name is taken.  Of two devices with one name the
    earlier is used whichever was chosen: start-up fails or succeeds on its
    sample rate and the capture is opened on its id. *)
Theorem first_device_of_a_name_is_used
    (before between after : list Device) (d1 d2 : Device) (s : State) :
  dev_name d1 = dev_name d2 ->
  (forall x, In x before -> dev_name x <> dev_name d2) ->
  let chosen := audioDeviceOf (before ++ d1 :: between ++ d2 :: after) (dev_name d2) in
  chosen = Some d1
  /\ (dev_defaultSampleRate d1 <> 48000 ->
      completion (onClientReady chosen s) = Exit 0
      /\ st_player (state (onClientReady chosen s)) = st_player s)
  /\ (dev_defaultSampleRate d1 = 48000 ->
      st_player (state (onClientReady chosen s))
      = Some {| player_status := Playing; capture_device := dev_id d1;
                capture_started := true |}).
Proof.
  intros Hn Hb. cbv zeta.
  assert (E : audioDeviceOf (before ++ d1 :: between ++ d2 :: after) (dev_name d2)
              = Some d1).
  { unfold audioDeviceOf. induction before as [|x before IH]; cbn [app List.find].
    - rewrite Hn, String.eqb_refl. reflexivity.
    - assert (Nx : String.eqb (dev_name x) (dev_name d2) = false)
        by (apply String.eqb_neq, Hb; left; reflexivity).
      rewrite Nx. apply IH. intros y Hy. apply Hb. right. exact Hy. }
  rewrite E. split; [reflexivity|]. split.
  - intros R. rewrite (onClientReady_exits d1 R s). split; reflexivity.
  - intros R. rewrite (onClientReady_started d1 s R). reflexivity.
Qed.

Lemma first_device_of_a_name_is_used_witness :
  dev_name Sample.cdDevice = dev_name {| dev_name := "CD Out"; dev_id := 9;
                                         dev_defaultSampleRate := 48000;
                                         dev_channels := 2; dev_bitDepth := 16 |}
  /\ audioDeviceOf
       ([Sample.loopback] ++ Sample.cdDevice :: [Sample.monoMic]
          ++ {| dev_name := "CD Out"; dev_id := 9; dev_defaultSampleRate := 48000;
                dev_channels := 2; dev_bitDepth := 16 |} :: [])
       "CD Out"
     = Some Sample.cdDevice.
Proof.
  split; [reflexivity|].
  refine (proj1 (first_device_of_a_name_is_used [Sample.loopback] [Sample.monoMic] []
            Sample.cdDevice
            {| dev_name := "CD Out"; dev_id := 9; dev_defaultSampleRate := 48000;
               dev_channels := 2; dev_bitDepth := 16 |}
            Sample.boot eq_refl _)).
  intros x [<-|[]]. discriminate.
Defined.

(** X19.  When no device has the chosen name the lookup gives [undefined];
    start-up then catches the TypeError of reading its sample rate, prints
    that message and exits with status 0, with no player and the message
    listener not attached. *)
Theorem missing_device_ends_startup
    (devices : list Device) (deviceName : string) (s : State) :
  (forall x, In x devices -> dev_name x <> deviceName) ->
  onClientReady (audioDeviceOf devices deviceName) s
  = mkResult (Exit 0) s
      [ConsoleLog "Server is ready ..."; SetStatus "invisible";
       ConsoleError "Cannot read properties of undefined (reading 'defaultSampleRate')";
       ProcessExit 0].
Proof.
  intros H.
  assert (E : audioDeviceOf devices deviceName = None).
  { unfold audioDeviceOf.
    pose proof (find_first (fun device => String.eqb (dev_name device) deviceName)
                  devices) as F.
    destruct (List.find _ devices) as [d|]; [|reflexivity].
    destruct F as (Fd & before & after & -> & _).
    apply String.eqb_eq in Fd. exfalso. apply (H d); [|exact Fd].
    apply in_or_app. right. left. reflexivity. }
  rewrite E. reflexivity.
Qed.

Lemma missing_device_ends_startup_witness :
  (forall x, In x [Sample.loopback; Sample.monoMic] -> dev_name x <> "Headset")
  /\ completion
       (onClientReady (audioDeviceOf [Sample.loopback; Sample.monoMic] "Headset")
          Sample.boot) = Exit 0.
Proof.
  assert (H : forall x, In x [Sample.loopback; Sample.monoMic] ->
                        dev_name x <> "Headset")
    by (intros x [<-|[<-|[]]]; discriminate).
  split; [exact H|].
  exact (f_equal completion
           (missing_device_ends_startup [Sample.loopback; Sample.monoMic] "Headset"
              Sample.boot H)).
Defined.

(** ** The log line of a caught error *)

Lemma isOneCodeUnit_after_backslash (x y : string) :
  isOneCodeUnit (x +:+ String "\" y) = true -> y = EmptyString.
Proof.
  destruct x as [|a [|b [|c [|a' x]]]], y as [|d [|e [|f y]]]; simpl;
    rewrite ?andb_false_r; simpl; intros H; try discriminate H; reflexivity.
Qed.

Lemma dropFinalEscape_removes (pre ch : string) :
  isOneCodeUnit ch = true -> isLineTerminator ch = false ->
  dropFinalEscape (pre +:+ String "\" ch) = pre.
Proof.
  intros U L. induction pre as [|c pre IH].
  - change (EmptyString +:+ String "\" ch) with (String "\" ch).
    cbn [dropFinalEscape]. rewrite U, L. reflexivity.
  - change (String c pre +:+ String "\" ch) with (String c (pre +:+ String "\" ch)).
    cbn [dropFinalEscape].
    destruct (isOneCodeUnit (pre +:+ String "\" ch)) eqn:O.
    + apply isOneCodeUnit_after_backslash in O. subst ch. discriminate U.
    + rewrite andb_false_r. cbn [andb]. rewrite IH. reflexivity.
Qed.

Lemma dropFinalEscape_keeps (s : string) :
  (forall pre ch, s = pre +:+ String "\" ch ->
                  isOneCodeUnit ch = false \/ isLineTerminator ch = true) ->
  dropFinalEscape s = s.
Proof.
  induction s as [|c r IH]; intros H; [reflexivity|]. cbn [dropFinalEscape].
  destruct (Ascii.eqb_spec c "\") as [->|N].
  - destruct (H EmptyString r eq_refl) as [U|L].
    + rewrite U. cbn [andb]. rewrite IH; [reflexivity|].
      intros pre ch E. apply (H (String "\" pre) ch). rewrite E. reflexivity.
    + rewrite L, andb_false_r. rewrite IH; [reflexivity|].
      intros pre ch E. apply (H (String "\" pre) ch). rewrite E. reflexivity.
  - cbn [andb]. rewrite IH; [reflexivity|].
    intros pre ch E. apply (H (String c pre) ch). rewrite E. reflexivity.
Qed.

(** X15.  The replacement applied to the message of a caught error removes
    a final backslash together with the one character after it, when that
    character is a single code unit and no line terminator, and leaves
    what stands before; every other message is logged as it is, a message
    ending in a full stop included. *)
Theorem dropFinalEscape_cases (s pre ch : string) :
  (isOneCodeUnit ch = true -> isLineTerminator ch = false ->
   dropFinalEscape (pre +:+ String "\" ch) = pre)
  /\ ((forall pre' ch', s = pre' +:+ String "\" ch' ->
                        isOneCodeUnit ch' = false \/ isLineTerminator ch' = true) ->
      dropFinalEscape s = s).
Proof.
  split; [apply dropFinalEscape_removes|apply dropFinalEscape_keeps].
Qed.

Lemma dropFinalEscape_cases_witness :
  isOneCodeUnit "é" = true
  /\ dropFinalEscape ("caf" +:+ String "\" "é") = "caf"
  /\ dropFinalEscape "Adapter unavailable." = "Adapter unavailable.".
Proof.
  assert (U : isOneCodeUnit "é" = true) by reflexivity.
  assert (L : isLineTerminator "é" = false) by reflexivity.
  split; [exact U|].
  split; [exact (proj1 (dropFinalEscape_cases EmptyString "caf" "é") U L)|].
  reflexivity.
Defined.

(** ** One player for all guilds *)

(** X20.  A [stop] in one guild calls [player.stop()] on the player that
    the connections of all guilds subscribe, and leaves the connection of
    another guild in the table, not destroyed.  When the player then goes
    idle, the listener of [stream.js] line 52 throws a ReferenceError, its
    [connection] being unbound, and destroys nothing. *)
Theorem stop_in_one_guild_stops_the_shared_player
    (s : State) (guild : Guild) (channel k : Snowflake) (c0 c : VoiceConnection)
    (p : Pipeline) (je : option JsError) :
  st_connections s !! guild_id guild = Some c0 ->
  st_player s = Some p ->
  k <> guild_id guild ->
  st_connections s !! k = Some c ->
  let r := voiceController je "stop" guild channel None s in
  In PlayerStop (effects r)
  /\ ~ In (ConnectionDestroy k) (effects r)
  /\ st_connections (state r) !! k = Some c
  /\ onPlayerIdle (state r)
     = mkResult (Throw (ReferenceError "connection is not defined")) (state r) [].
Proof.
  intros Hc Hp Hk Hkc. cbv zeta.
  rewrite (voiceController_stop_connected je s guild channel c0 p Hc Hp).
  cbn [state effects]. split; [left; reflexivity|]. split; [|split].
  - intros F. cbn in F. destruct F as [F|[F|F]]; [discriminate F| |].
    + injection F as F. apply Hk. symmetry. exact F.
    + destruct (guild_me_voice guild) as [[id|]|]; cbn in F;
        repeat (destruct F as [F|F]; [discriminate F|]); exact F.
  - cbn. rewrite lookup_delete_ne by (intros E; apply Hk; symmetry; exact E).
    exact Hkc.
  - reflexivity.
Qed.

Lemma stop_in_one_guild_stops_the_shared_player_witness :
  st_connections Sample.streamingBoth !! "900000000000000002"
  = Some {| vc_channel := "444444444444444444"; vc_subscribed := true |}
  /\ st_connections
       (state (voiceController None "stop" (Sample.home None) "555555555555555555"
                 None Sample.streamingBoth))
     !! "900000000000000002"
     = Some {| vc_channel := "444444444444444444"; vc_subscribed := true |}.
Proof.
  assert (H : st_connections Sample.streamingBoth !! "900000000000000002"
              = Some {| vc_channel := "444444444444444444"; vc_subscribed := true |})
    by (vm_compute; reflexivity).
  split; [exact H|].
  refine (proj1 (proj2 (proj2 (stop_in_one_guild_stops_the_shared_player
            Sample.streamingBoth
            (Sample.home None) "555555555555555555" "900000000000000002"
            {| vc_channel := "111111111111111111"; vc_subscribed := true |} _
            {| player_status := Playing; capture_device := 3; capture_started := true |}
            None _ _ _ H)))).
  - vm_compute. reflexivity.
  - vm_compute. reflexivity.
  - discriminate.
Defined.
